(** * Hate-speech detector front end: a shallow embedding of the page scripts

    The repository holds two browser scripts that drive the same page: the
    configurable one (module [Part000] below) and the earlier, minimal
    [app.js] (module [AppJs]).  Both read the text area, post the text to the
    moderation back end with [fetch] under an abort timer, and paint the
    verdict and the five category bars.

    The embedding keeps the shape of the scripts: one Rocq definition per
    JavaScript function, under the same name.  What the browser supplies is
    modelled by data: the page's elements are a record of the properties the
    scripts read and write, the network is the behaviour of the single
    [fetch] of a click, and calls that leave the page ([alert], [fetch]) are
    logged in the state.  [console] output is not modelled. *)

From Stdlib Require Import ZArith List Ascii String Bool Lia DecimalString.
From Stdlib Require Import PrimFloat FloatOps SpecFloat.
Import ListNotations.
Local Open Scope Z_scope.
Set Warnings "-inexact-float,-register-all".

(** ** JavaScript strings

    A JavaScript string is a sequence of UTF-16 code units; [length],
    [substring], [trim] and [includes] all count code units. *)

Definition code_unit := Z.
Definition jsstring := list code_unit.

(** An ASCII literal of the source. *)
Definition lit (s : string) : jsstring :=
  map (fun a => Z.of_N (N_of_ascii a)) (list_ascii_of_string s).

(** A code point of the source text, as the code units it occupies. *)
Definition utf16 (cp : Z) : jsstring :=
  if cp <? 65536 then [cp]
  else [55296 + (cp - 65536) / 1024; 56320 + (cp - 65536) mod 1024].

Definition dquote : jsstring := [34].
Definition newline : jsstring := [10].
Definition spaces (n : nat) : jsstring := repeat 32 n.

Definition js_length (s : jsstring) : Z := Z.of_nat (List.length s).

Fixpoint str_eqb (s t : jsstring) : bool :=
  match s, t with
  | [], [] => true
  | c :: s', d :: t' => (c =? d) && str_eqb s' t'
  | _, _ => false
  end.

(** WhiteSpace and LineTerminator of ECMAScript, the code units that
    [String.prototype.trim] strips. *)
Definition is_white_space (c : code_unit) : bool :=
  ((9 <=? c) && (c <=? 13)) || (c =? 32) || (c =? 160) || (c =? 5760)
  || ((8192 <=? c) && (c <=? 8202)) || (c =? 8232) || (c =? 8233)
  || (c =? 8239) || (c =? 8287) || (c =? 12288) || (c =? 65279).

Fixpoint trimStart (s : jsstring) : jsstring :=
  match s with
  | c :: s' => if is_white_space c then trimStart s' else s
  | [] => []
  end.

Definition trimEnd (s : jsstring) : jsstring := rev (trimStart (rev s)).

Definition trim (s : jsstring) : jsstring := trimEnd (trimStart s).

(** [s.substring(start, finish)]: both indices are clamped to the string and
    swapped when out of order. *)
Definition substring (s : jsstring) (start finish : Z) : jsstring :=
  let clamp i := Z.min (Z.max i 0) (js_length s) in
  let lo := Z.min (clamp start) (clamp finish) in
  let hi := Z.max (clamp start) (clamp finish) in
  firstn (Z.to_nat (hi - lo)) (skipn (Z.to_nat lo) s).

Fixpoint starts_with (s p : jsstring) : bool :=
  match p, s with
  | [], _ => true
  | d :: p', c :: s' => (c =? d) && starts_with s' p'
  | _ :: _, [] => false
  end.

(** [s.includes(p)]. *)
Fixpoint includes (s p : jsstring) : bool :=
  match s with
  | [] => starts_with [] p
  | _ :: s' => starts_with s p || includes s' p
  end.

(** Decimal digits of an integer, as a template literal prints it. *)
Definition decimal (z : Z) : jsstring :=
  lit (NilZero.string_of_int (Z.to_int z)).

(** ** Numbers

    Numbers are IEEE 754 doubles, here the kernel's binary64 floats. *)

Definition is_nan (x : float) : bool := negb (PrimFloat.eqb x x).

(** The integer a double denotes, when it is finite and integral. *)
Definition integer_value (x : float) : option Z :=
  match Prim2SF x with
  | S754_zero _ => Some 0
  | S754_finite s m e =>
      let mag :=
        if 0 <=? e then Some (Z.pos m * 2 ^ e)
        else if Z.pos m mod 2 ^ (- e) =? 0 then Some (Z.pos m / 2 ^ (- e))
        else None in
      option_map (fun n => if s then - n else n) mag
  | _ => None
  end.

(** [Math.round]: the nearest integer, ties towards plus infinity; NaN, the
    infinities and the zeros are returned as they are, and a value that
    rounds to zero keeps its sign. *)
Definition Math_round (x : float) : float :=
  match Prim2SF x with
  | S754_finite s m e =>
      if 0 <=? e then x
      else
        let signed := if s then - Z.pos m else Z.pos m in
        let n := (2 * signed + 2 ^ (- e)) / 2 ^ (- e + 1) in
        match n with
        | Z0 => SF2Prim (S754_zero s)
        | Zpos p => SF2Prim (S754_finite false p 0)
        | Zneg p => SF2Prim (S754_finite true p 0)
        end
  | _ => x
  end.

(** [Math.max] of two numbers: NaN when either is. *)
Definition Math_max (x y : float) : float :=
  if is_nan x || is_nan y then nan
  else if PrimFloat.ltb x y then y else x.

(** ** Values

    What [JSON.parse] builds, and [undefined], which reading an absent
    property gives.  An object lists its own properties; names are distinct
    in a parsed object and the first entry of a name is the one read. *)

Inductive Value : Type :=
| VUndefined
| VNull
| VBool (b : bool)
| VNum (x : float)
| VStr (s : jsstring)
| VArr (items : list Value)
| VObj (fields : list (jsstring * Value)).

Record JsError : Type := mkError { name : jsstring; message : jsstring }.

(** [new Error(message)]. *)
Definition new_Error (msg : jsstring) : JsError := mkError (lit "Error") msg.

(** The outcome of a synchronous call. *)
Inductive Result (A : Type) : Type :=
| Ok (a : A)
| Thrown (e : JsError).
Arguments Ok {A} a.
Arguments Thrown {A} e.

(** The state a promise ends in; [Pending] is a promise that never settles. *)
Inductive Promise (A : Type) : Type :=
| Fulfilled (a : A)
| Rejected (e : JsError)
| Pending.
Arguments Fulfilled {A} a.
Arguments Rejected {A} e.
Arguments Pending {A}.

(** What the scripts leave to the JavaScript engine and the browser: the
    wording of the error messages they raise themselves, and the two number
    conversions outside the integers. *)
Class Engine : Type := {
  (** message of the TypeError raised by reading property [key] of
      [undefined] or [null] *)
  type_error_message : Value -> jsstring -> jsstring;
  (** message of the DOMException an aborted [fetch] rejects with *)
  abort_message : jsstring;
  (** Number::toString on a finite double that is not an integer below
      2^53 in magnitude *)
  number_to_string_other : float -> jsstring;
  (** StringToNumber *)
  string_to_number : jsstring -> float
}.

Definition lookup (fields : list (jsstring * Value)) (k : jsstring) : Value :=
  match find (fun kv => str_eqb (fst kv) k) fields with
  | Some kv => snd kv
  | None => VUndefined
  end.

Definition index0 : jsstring := lit "0".

(** ToBoolean. *)
Definition truthy (v : Value) : bool :=
  match v with
  | VUndefined | VNull => false
  | VBool b => b
  | VNum x => negb (is_nan x || PrimFloat.eqb x 0)
  | VStr s => negb (str_eqb s [])
  | VArr _ | VObj _ => true
  end.

Section WithEngine.
Context {E : Engine}.

(** Reading [v.k] or [v[k]], for the property names the scripts use
    ([error], [results], [0], [flagged], [categories], [category_scores]
    and the five category names): none of them is inherited from a
    prototype, so a primitive, an array or a string has it only as index
    [0]. *)
Definition get (v : Value) (k : jsstring) : Result Value :=
  match v with
  | VUndefined | VNull =>
      Thrown (mkError (lit "TypeError") (type_error_message v k))
  | VBool _ | VNum _ => Ok VUndefined
  | VStr s =>
      Ok (if str_eqb k index0
          then match s with c :: _ => VStr [c] | [] => VUndefined end
          else VUndefined)
  | VArr items =>
      Ok (if str_eqb k index0 then nth 0%nat items VUndefined
          else VUndefined)
  | VObj fields => Ok (lookup fields k)
  end.

(** Number::toString. *)
Definition number_to_string (x : float) : jsstring :=
  if is_nan x then lit "NaN"
  else if PrimFloat.eqb x infinity then lit "Infinity"
  else if PrimFloat.eqb x neg_infinity then lit "-Infinity"
  else match integer_value x with
       | Some z =>
           if Z.abs z <? 2 ^ 53 then decimal z
           else number_to_string_other x
       | None => number_to_string_other x
       end.

(** ToString; an array is its elements joined by commas, [null] and
    [undefined] elements printing as nothing. *)
Fixpoint to_string (v : Value) : jsstring :=
  match v with
  | VUndefined => lit "undefined"
  | VNull => lit "null"
  | VBool true => lit "true"
  | VBool false => lit "false"
  | VNum x => number_to_string x
  | VStr s => s
  | VArr items =>
      (fix join (l : list Value) : jsstring :=
         match l with
         | [] => []
         | x :: rest =>
             let here :=
               match x with
               | VUndefined | VNull => []
               | _ => to_string x
               end in
             match rest with
             | [] => here
             | _ :: _ => here ++ lit "," ++ join rest
             end
         end) items
  | VObj _ => lit "[object Object]"
  end.

(** ToNumber. *)
Definition to_number (v : Value) : float :=
  match v with
  | VUndefined => nan
  | VNull => 0%float
  | VBool true => 1%float
  | VBool false => 0%float
  | VNum x => x
  | VStr s => string_to_number s
  | VArr _ => string_to_number (to_string v)
  | VObj _ => nan
  end.

End WithEngine.

(** ** The page and the network, as both scripts see them *)

(** A category bar: the three properties the scripts assign, each holding
    the string last assigned to it.  (For [width] that is what the page
    shows when the string is a valid width; a browser drops an assignment
    that is not.) *)
Record Bar : Type := mkBar {
  width : jsstring;
  innerText : jsstring;
  backgroundColor : jsstring
}.

(** The [categories] object: one entry per bar, [None] where
    [getElementById] found no element. *)
Record Categories : Type := mkCategories {
  hate : option Bar;
  harassment : option Bar;
  selfHarm : option Bar;
  sexual : option Bar;
  violence : option Bar
}.

Inductive CategoryKey : Type :=
| key_hate | key_harassment | key_selfHarm | key_sexual | key_violence.

Definition bar_of (cs : Categories) (k : CategoryKey) : option Bar :=
  match k with
  | key_hate => hate cs
  | key_harassment => harassment cs
  | key_selfHarm => selfHarm cs
  | key_sexual => sexual cs
  | key_violence => violence cs
  end.

Definition set_bar (cs : Categories) (k : CategoryKey) (b : Bar) : Categories :=
  match k with
  | key_hate => mkCategories (Some b) (harassment cs) (selfHarm cs) (sexual cs) (violence cs)
  | key_harassment => mkCategories (hate cs) (Some b) (selfHarm cs) (sexual cs) (violence cs)
  | key_selfHarm => mkCategories (hate cs) (harassment cs) (Some b) (sexual cs) (violence cs)
  | key_sexual => mkCategories (hate cs) (harassment cs) (selfHarm cs) (Some b) (violence cs)
  | key_violence => mkCategories (hate cs) (harassment cs) (selfHarm cs) (sexual cs) (Some b)
  end.

(** [Object.values(categories).forEach(bar => { if (bar) ... })]. *)
Definition for_each_bar (f : Bar -> Bar) (cs : Categories) : Categories :=
  mkCategories (option_map f (hate cs)) (option_map f (harassment cs))
    (option_map f (selfHarm cs)) (option_map f (sexual cs))
    (option_map f (violence cs)).

(** The request a script hands to [fetch].  The body is
    [JSON.stringify({ text })]; the record keeps the [text] it carries, and
    [request_body] below is the body itself. *)
Record Request : Type := mkRequest {
  url : jsstring;
  method : jsstring;
  content_type : jsstring;
  body_text : jsstring
}.

(** A lower-case hexadecimal digit. *)
Definition hex_digit (n : Z) : code_unit := if n <? 10 then 48 + n else 87 + n.

(** UnicodeEscape: a backslash, [u] and four hexadecimal digits. *)
Definition unicode_escape (c : code_unit) : jsstring :=
  [92; 117; hex_digit (c / 4096); hex_digit ((c / 256) mod 16);
   hex_digit ((c / 16) mod 16); hex_digit (c mod 16)].

Definition is_leading_surrogate (c : code_unit) : bool :=
  (55296 <=? c) && (c <=? 56319).

Definition is_trailing_surrogate (c : code_unit) : bool :=
  (56320 <=? c) && (c <=? 57343).

(** How QuoteJSONString writes a code unit that is not half of a surrogate
    pair: the short escapes, a Unicode escape for the other control
    characters and for a lone surrogate, and the unit itself otherwise. *)
Definition quote_unit (c : code_unit) : jsstring :=
  if c =? 8 then [92; 98]
  else if c =? 9 then [92; 116]
  else if c =? 10 then [92; 110]
  else if c =? 12 then [92; 102]
  else if c =? 13 then [92; 114]
  else if c =? 34 then [92; 34]
  else if c =? 92 then [92; 92]
  else if (c <? 32) || is_leading_surrogate c || is_trailing_surrogate c
  then unicode_escape c
  else [c].

(** The inside of the string QuoteJSONString writes, code point by code
    point: a leading surrogate followed by a trailing one is a pair and is
    kept. *)
Fixpoint quote_units (s : jsstring) : jsstring :=
  match s with
  | [] => []
  | c :: rest =>
      match rest with
      | d :: rest' =>
          if is_leading_surrogate c && is_trailing_surrogate d
          then c :: d :: quote_units rest'
          else quote_unit c ++ quote_units rest
      | [] => quote_unit c
      end
  end.

(** [JSON.stringify({ text })]. *)
Definition stringify_text (text : jsstring) : jsstring :=
  lit "{" ++ dquote ++ lit "text" ++ dquote ++ lit ":"
  ++ dquote ++ quote_units text ++ dquote ++ lit "}".

(** The body of a request, as handed to [fetch]. *)
Definition request_body (r : Request) : jsstring := stringify_text (body_text r).

(** Reading the body of a response with [response.json()]: it parses to a
    value, fails (no body, text that is not JSON, a broken stream), or never
    finishes arriving. *)
Inductive Body : Type :=
| BodyJson (v : Value)
| BodyFails (e : JsError)
| BodyStalls.

Record Response : Type := mkResponse { status : Z; body : Body }.

(** [response.ok]. *)
Definition ok (r : Response) : bool := (200 <=? status r) && (status r <=? 299).

(** [response.json()]. *)
Definition json (r : Response) : Promise Value :=
  match body r with
  | BodyJson v => Fulfilled v
  | BodyFails e => Rejected e
  | BodyStalls => Pending
  end.

(** What the network does with the one request of a click: the response
    head arrives [at_ms] milliseconds after the call, or the transport fails
    then, in which case [fetch] rejects with a TypeError whose message is the
    browser's, or nothing ever comes back. *)
Inductive Network : Type :=
| Responds (at_ms : Z) (r : Response)
| TransportFails (at_ms : Z) (msg : jsstring)
| Silent.

(** One [await fetch(url, { ..., signal })] raced against
    [setTimeout(() => controller.abort(), timeout)]: the promise [fetch]
    returns, and whether the timer fired and aborted the request.  An event
    at the very instant of the timer is taken to lose against it. *)
Definition fetch {E : Engine} (timeout : Z) (net : Network) : Promise Response * bool :=
  let abort := (Rejected (mkError (lit "AbortError") abort_message), true) in
  match net with
  | Responds t r => if t <? timeout then (Fulfilled r, false) else abort
  | TransportFails t msg =>
      if t <? timeout then (Rejected (mkError (lit "TypeError") msg), false)
      else abort
  | Silent => abort
  end.

(** One run of [analyzeText]: the request sent, whether the controller
    aborted it, and how the returned promise settles. *)
Record Call : Type := mkCall {
  sent : Request;
  signal_aborted : bool;
  outcome : Promise Value
}.

(** How one run of a click handler ends, the run taken alone: it ran to
    its end, or it is still suspended at an [await] that never resumes.
    Two runs that overlap, the second started while the first awaits, are
    not modelled. *)
Inductive Run (W : Type) : Type :=
| Settled (w : W)
| Suspended (w : W).
Arguments Settled {W} w.
Arguments Suspended {W} w.

(** Synchronous code over a mutable page: the page after the call, and the
    value returned or the error thrown. *)
Definition Eff (D A : Type) : Type := D -> Result A * D.

Definition ret {D A} (a : A) : Eff D A := fun d => (Ok a, d).

Definition throw {D A} (e : JsError) : Eff D A := fun d => (Thrown e, d).

Definition bind {D A B} (m : Eff D A) (k : A -> Eff D B) : Eff D B :=
  fun d =>
    match m d with
    | (Ok a, d') => k a d'
    | (Thrown e, d') => (Thrown e, d')
    end.

(** A property read that may throw. *)
Definition read {D A} (r : Result A) : Eff D A := fun d => (r, d).

(** An assignment to the page. *)
Definition assign {D} (f : D -> D) : Eff D unit := fun d => (Ok tt, f d).

Declare Scope eff_scope.
Delimit Scope eff_scope with eff.
Notation "x <- m ;; k" := (bind m (fun x => k))
  (at level 61, m at next level, right associativity) : eff_scope.
Notation "m ;; k" := (bind m (fun _ => k))
  (at level 61, right associativity) : eff_scope.

(** ** The configurable script *)

Module Part000.

Record Config : Type := mkConfig {
  BACKEND_URL : jsstring;
  MAX_INPUT_LENGTH : Z;
  REQUEST_TIMEOUT : Z
}.

Definition CONFIG : Config := {|
  BACKEND_URL := lit "https://hate-speach-detection-model.onrender.com/analyze";
  MAX_INPUT_LENGTH := 2000;
  REQUEST_TIMEOUT := 30000
|}.

(** The elements of [DOM], by the properties the script touches. *)
Record DOM : Type := mkDOM {
  inputText_value : jsstring;
  analyzeBtn_disabled : bool;
  analyzeBtn_innerHTML : jsstring;
  loader_display : jsstring;
  resultBox_display : jsstring;
  verdictText_innerHTML : jsstring;
  categories : Categories
}.

(** The page together with what has left it: the alerts shown and the
    requests handed to [fetch], oldest first. *)
Record World : Type := mkWorld {
  dom : DOM;
  alerts : list jsstring;
  requests : list Request
}.

Definition set_inputText_value (v : jsstring) (d : DOM) : DOM :=
  mkDOM v (analyzeBtn_disabled d) (analyzeBtn_innerHTML d) (loader_display d)
    (resultBox_display d) (verdictText_innerHTML d) (categories d).

Definition set_analyzeBtn (disabled : bool) (html : jsstring) (d : DOM) : DOM :=
  mkDOM (inputText_value d) disabled html (loader_display d)
    (resultBox_display d) (verdictText_innerHTML d) (categories d).

Definition set_loader_display (v : jsstring) (d : DOM) : DOM :=
  mkDOM (inputText_value d) (analyzeBtn_disabled d) (analyzeBtn_innerHTML d) v
    (resultBox_display d) (verdictText_innerHTML d) (categories d).

Definition set_resultBox_display (v : jsstring) (d : DOM) : DOM :=
  mkDOM (inputText_value d) (analyzeBtn_disabled d) (analyzeBtn_innerHTML d)
    (loader_display d) v (verdictText_innerHTML d) (categories d).

Definition set_verdictText_innerHTML (v : jsstring) (d : DOM) : DOM :=
  mkDOM (inputText_value d) (analyzeBtn_disabled d) (analyzeBtn_innerHTML d)
    (loader_display d) (resultBox_display d) v (categories d).

Definition set_categories (cs : Categories) (d : DOM) : DOM :=
  mkDOM (inputText_value d) (analyzeBtn_disabled d) (analyzeBtn_innerHTML d)
    (loader_display d) (resultBox_display d) (verdictText_innerHTML d) cs.

Definition on_dom (f : DOM -> DOM) (w : World) : World :=
  mkWorld (f (dom w)) (alerts w) (requests w).

(** A line of a multi-line template literal: the line break, the
    indentation, the text. *)
Definition line (indent : nat) (text : jsstring) : jsstring :=
  newline ++ spaces indent ++ text.

Definition open_tag (tag attr value : string) : jsstring :=
  lit "<" ++ lit tag ++ lit " " ++ lit attr ++ lit "=" ++ dquote ++ lit value
  ++ dquote ++ lit ">".

Definition harmful_banner : jsstring :=
  line 12 (open_tag "span" "style" "color: #ef4444; font-weight: 600;")
  ++ line 16 (utf16 128680 ++ lit " Potentially Harmful Content Detected")
  ++ line 12 (lit "</span>") ++ line 8 [].

Definition safe_banner : jsstring :=
  line 12 (open_tag "span" "style" "color: #10b981; font-weight: 600;")
  ++ line 16 (utf16 9989 ++ lit " Content Appears Safe")
  ++ line 12 (lit "</span>") ++ line 8 [].

Definition analyzing_label : jsstring :=
  line 12 (open_tag "span" "style" "display: flex; align-items: center; gap: 8px;")
  ++ line 16 (open_tag "span" "class" "spinner" ++ lit "</span>")
  ++ line 16 (lit "Analyzing...")
  ++ line 12 (lit "</span>") ++ line 8 [].

Definition error_block (msg : jsstring) : jsstring :=
  line 8 (open_tag "div" "style" "color: #ef4444; white-space: pre-line;")
  ++ line 12 msg
  ++ line 8 (lit "</div>") ++ line 4 [].

(** The warning sign of the source, with its variation selector. *)
Definition warning_sign : jsstring := utf16 9888 ++ utf16 65039.

Definition timeout_message : jsstring :=
  lit "Request timeout. The server took too long to respond. Please try again.".

Definition connect_message : jsstring :=
  lit "Cannot connect to server. Please check your internet connection.".

Definition timeout_tip : jsstring :=
  newline ++ newline ++ utf16 128161
  ++ lit " Tip: The backend might be sleeping (Render free tier). Please wait 30 seconds and try again.".

Definition connect_tip : jsstring :=
  newline ++ newline ++ utf16 128161
  ++ lit " Tip: Check if the backend URL is correct and the server is running.".

Section Script.
Context {E : Engine}.

Definition displayVerdict (flagged : Value) (d : DOM) : DOM :=
  if truthy flagged then set_verdictText_innerHTML harmful_banner d
  else set_verdictText_innerHTML safe_banner d.

Definition updateCategoryBar (categoryKey : CategoryKey) (score flagged : Value)
    (d : DOM) : DOM :=
  match bar_of (categories d) categoryKey with
  | None => d
  | Some _ =>
      let percentage := Math_round (to_number score * 100) in
      let shown := number_to_string percentage in
      let w := number_to_string (Math_max percentage 2) ++ lit "%" in
      let bar :=
        if truthy flagged then
          mkBar w (warning_sign ++ lit " " ++ shown ++ lit "% - FLAGGED") (lit "#ef4444")
        else if PrimFloat.ltb 50 percentage then
          mkBar w (shown ++ lit "% - High Risk") (lit "#f59e0b")
        else if PrimFloat.ltb 20 percentage then
          mkBar w (shown ++ lit "% - Medium") (lit "#fbbf24")
        else
          mkBar w (shown ++ lit "% - Low") (lit "#10b981") in
      set_categories (set_bar (categories d) categoryKey bar) d
  end.

Definition showLoader (show : bool) (d : DOM) : DOM :=
  set_loader_display (if show then lit "block" else lit "none") d.

Definition setButtonState (analyzing : bool) (d : DOM) : DOM :=
  if analyzing then set_analyzeBtn true analyzing_label d
  else set_analyzeBtn false (lit "Analyze Text") d.

Definition resetUI (d : DOM) : DOM :=
  let d1 := set_verdictText_innerHTML [] d in
  let d2 := set_resultBox_display (lit "none") d1 in
  set_categories
    (for_each_bar (fun _ => mkBar (lit "0%") [] (lit "#cbd5e1")) (categories d2))
    d2.

Definition handleError (error : JsError) (d : DOM) : DOM :=
  let message0 := warning_sign ++ lit " Error: " ++ message error in
  let message1 :=
    if includes (message error) (lit "timeout") then message0 ++ timeout_tip
    else if includes (message error) (lit "connect") then message0 ++ connect_tip
    else message0 in
  set_resultBox_display (lit "block")
    (set_verdictText_innerHTML (error_block message1) d).

Definition showError (msg : jsstring) (w : World) : World :=
  mkWorld (dom w) (alerts w ++ [msg]) (requests w).

(** The [input] listener of the text area. *)
Definition inputListener (d : DOM) : DOM :=
  let length := js_length (inputText_value d) in
  if length >? MAX_INPUT_LENGTH CONFIG then
    set_inputText_value
      (substring (inputText_value d) 0 (MAX_INPUT_LENGTH CONFIG)) d
  else d.

Definition analyzeText (text : jsstring) (net : Network) : Call :=
  let request :=
    mkRequest (BACKEND_URL CONFIG) (lit "POST") (lit "application/json") text in
  let '(fetched, aborted) := fetch (REQUEST_TIMEOUT CONFIG) net in
  (* the [try] block *)
  let tried : Promise Value :=
    match fetched with
    | Fulfilled response =>
        if negb (ok response) then
          (* await response.json().catch(() => ({})) *)
          let errorData : Promise Value :=
            match json response with
            | Rejected _ => Fulfilled (VObj [])
            | settled => settled
            end in
          match errorData with
          | Fulfilled data =>
              match get data (lit "error") with
              | Thrown e => Rejected e
              | Ok supplied =>
                  Rejected (new_Error
                    (if truthy supplied then to_string supplied
                     else lit "Server error: " ++ decimal (status response)))
              end
          | Rejected e => Rejected e
          | Pending => Pending
          end
        else json response
    | Rejected e => Rejected e
    | Pending => Pending
    end in
  (* the [catch] block *)
  let caught : Promise Value :=
    match tried with
    | Rejected error =>
        if str_eqb (name error) (lit "AbortError") then
          Rejected (new_Error timeout_message)
        else if includes (message error) (lit "Failed to fetch") then
          Rejected (new_Error connect_message)
        else Rejected error
    | settled => settled
    end in
  mkCall request aborted caught.

Definition processApiResponse (data : Value) : Eff DOM unit :=
  (invalid <-
     (if negb (truthy data) then ret true
      else
        results <- read (get data (lit "results")) ;;
        if negb (truthy results) then ret true
        else
          first <- read (get results index0) ;;
          ret (negb (truthy first))) ;;
   if invalid : bool then
     throw (new_Error (lit "Invalid response format from server"))
   else
     results <- read (get data (lit "results")) ;;
     result <- read (get results index0) ;;
     flagged <- read (get result (lit "flagged")) ;;
     categories <- read (get result (lit "categories")) ;;
     scores <- read (get result (lit "category_scores")) ;;
     assign (displayVerdict flagged) ;;
     s <- read (get scores (lit "hate")) ;;
     c <- read (get categories (lit "hate")) ;;
     assign (updateCategoryBar key_hate s c) ;;
     s <- read (get scores (lit "harassment")) ;;
     c <- read (get categories (lit "harassment")) ;;
     assign (updateCategoryBar key_harassment s c) ;;
     s <- read (get scores (lit "self-harm")) ;;
     c <- read (get categories (lit "self-harm")) ;;
     assign (updateCategoryBar key_selfHarm s c) ;;
     s <- read (get scores (lit "sexual")) ;;
     c <- read (get categories (lit "sexual")) ;;
     assign (updateCategoryBar key_sexual s c) ;;
     s <- read (get scores (lit "violence")) ;;
     c <- read (get categories (lit "violence")) ;;
     assign (updateCategoryBar key_violence s c) ;;
     assign (set_resultBox_display (lit "block")))%eff.

(** The [finally] block of [handleAnalyzeClick]. *)
Definition finish (w : World) : World :=
  on_dom (setButtonState false) (on_dom (showLoader false) w).

Definition handleAnalyzeClick (net : Network) (w : World) : Run World :=
  let text := trim (inputText_value (dom w)) in
  if negb (truthy (VStr text)) then
    Settled (showError (lit "Please enter some text to analyze.") w)
  else if js_length text >? MAX_INPUT_LENGTH CONFIG then
    Settled (showError
      (lit "Text is too long. Maximum " ++ decimal (MAX_INPUT_LENGTH CONFIG)
       ++ lit " characters allowed.") w)
  else
    let w1 := on_dom (setButtonState true)
                (on_dom resetUI (on_dom (showLoader true) w)) in
    let call := analyzeText text net in
    let w2 := mkWorld (dom w1) (alerts w1) (requests w1 ++ [sent call]) in
    match outcome call with
    | Fulfilled data =>
        match processApiResponse data (dom w2) with
        | (Ok _, d) => Settled (finish (on_dom (fun _ => d) w2))
        | (Thrown error, d) =>
            Settled (finish (on_dom (handleError error) (on_dom (fun _ => d) w2)))
        end
    | Rejected error => Settled (finish (on_dom (handleError error) w2))
    | Pending => Suspended w2
    end.

(** The [keydown] listener of the text area: Ctrl+Enter is a click. *)
Definition keydownListener (ctrlKey : bool) (key : jsstring) (net : Network)
    (w : World) : Run World :=
  if ctrlKey && str_eqb key (lit "Enter") then handleAnalyzeClick net w
  else Settled w.

End Script.

End Part000.

(** ** The minimal script, [app.js] *)

Module AppJs.

Definition BACKEND_URL : jsstring :=
  lit "https://hate-speach-detection-model.onrender.com/analyze".

(** The elements the script holds, by the properties it touches. *)
Record DOM : Type := mkDOM {
  inputText_value : jsstring;
  loader_display : jsstring;
  resultBox_display : jsstring;
  verdictText_innerText : jsstring;
  categories : Categories
}.

Record World : Type := mkWorld {
  dom : DOM;
  alerts : list jsstring;
  requests : list Request
}.

Definition set_loader_display (v : jsstring) (d : DOM) : DOM :=
  mkDOM (inputText_value d) v (resultBox_display d) (verdictText_innerText d)
    (categories d).

Definition set_resultBox_display (v : jsstring) (d : DOM) : DOM :=
  mkDOM (inputText_value d) (loader_display d) v (verdictText_innerText d)
    (categories d).

Definition set_verdictText_innerText (v : jsstring) (d : DOM) : DOM :=
  mkDOM (inputText_value d) (loader_display d) (resultBox_display d) v
    (categories d).

Definition set_categories (cs : Categories) (d : DOM) : DOM :=
  mkDOM (inputText_value d) (loader_display d) (resultBox_display d)
    (verdictText_innerText d) cs.

Definition on_dom (f : DOM -> DOM) (w : World) : World :=
  mkWorld (f (dom w)) (alerts w) (requests w).

Definition generic_error : jsstring :=
  utf16 9888 ++ utf16 65039 ++ lit " Error analyzing text. Try again.".

Section Script.
Context {E : Engine}.

Definition updateCategory (category : CategoryKey) (value : Value) (d : DOM) : DOM :=
  match bar_of (categories d) category with
  | None => d
  | Some bar =>
      set_categories
        (set_bar (categories d) category
           (mkBar (if truthy value then lit "100%" else lit "5%")
                  (if truthy value then lit "Detected" else lit "Clean")
                  (backgroundColor bar)))
        d
  end.

Definition showLoader (show : bool) (d : DOM) : DOM :=
  set_loader_display (if show then lit "block" else lit "none") d.

Definition resetUI (d : DOM) : DOM :=
  let d1 := set_verdictText_innerText [] d in
  let d2 := set_resultBox_display (lit "none") d1 in
  set_categories
    (for_each_bar (fun bar => mkBar (lit "0%") [] (backgroundColor bar))
       (categories d2))
    d2.

Definition analyzeText (text : jsstring) (net : Network) : Call :=
  let request :=
    mkRequest BACKEND_URL (lit "POST") (lit "application/json") text in
  let '(fetched, aborted) := fetch 10000 net in
  let settled : Promise Value :=
    match fetched with
    | Fulfilled response =>
        if negb (ok response) then
          Rejected (new_Error (lit "Backend request failed"))
        else json response
    | Rejected e => Rejected e
    | Pending => Pending
    end in
  mkCall request aborted settled.

Definition processApiResponse (data : Value) : Eff DOM unit :=
  (invalid <-
     (results <- read (get data (lit "results")) ;;
      if negb (truthy results) then ret true
      else
        first <- read (get results index0) ;;
        ret (negb (truthy first))) ;;
   if invalid : bool then
     assign (set_verdictText_innerText (lit "Invalid response from server."))
   else
     results <- read (get data (lit "results")) ;;
     result <- read (get results index0) ;;
     flagged <- read (get result (lit "flagged")) ;;
     assign (set_verdictText_innerText
               (if truthy flagged
                then utf16 128680 ++ lit " Hate / Toxic Content Detected"
                else utf16 9989 ++ lit " Content Appears Safe")) ;;
     cs <- read (get result (lit "categories")) ;;
     v <- read (get cs (lit "hate")) ;;
     assign (updateCategory key_hate v) ;;
     cs <- read (get result (lit "categories")) ;;
     v <- read (get cs (lit "harassment")) ;;
     assign (updateCategory key_harassment v) ;;
     cs <- read (get result (lit "categories")) ;;
     v <- read (get cs (lit "self-harm")) ;;
     assign (updateCategory key_selfHarm v) ;;
     cs <- read (get result (lit "categories")) ;;
     v <- read (get cs (lit "sexual")) ;;
     assign (updateCategory key_sexual v) ;;
     cs <- read (get result (lit "categories")) ;;
     v <- read (get cs (lit "violence")) ;;
     assign (updateCategory key_violence v) ;;
     assign (set_resultBox_display (lit "block")))%eff.

(** The [click] listener of the button. *)
Definition clickListener (net : Network) (w : World) : Run World :=
  let text := trim (inputText_value (dom w)) in
  if negb (truthy (VStr text)) then
    Settled (mkWorld (dom w)
               (alerts w ++ [lit "Please enter some text to analyze."])
               (requests w))
  else
    let w1 := on_dom resetUI (on_dom (showLoader true) w) in
    let call := analyzeText text net in
    let w2 := mkWorld (dom w1) (alerts w1) (requests w1 ++ [sent call]) in
    let failed (w : World) :=
      on_dom (set_verdictText_innerText generic_error) w in
    match outcome call with
    | Fulfilled data =>
        match processApiResponse data (dom w2) with
        | (Ok _, d) =>
            Settled (on_dom (showLoader false) (on_dom (fun _ => d) w2))
        | (Thrown _, d) =>
            Settled (on_dom (showLoader false) (failed (on_dom (fun _ => d) w2)))
        end
    | Rejected _ => Settled (on_dom (showLoader false) (failed w2))
    | Pending => Suspended w2
    end.

End Script.

End AppJs.

(** ** An engine to run examples on

    The two messages are worded as V8 words them.  The examples below hold
    numbers only, and these round to integers, so neither conversion of the
    engine is reached: they are given constant answers here. *)

Definition example_engine : Engine := {|
  type_error_message v k :=
    lit "Cannot read properties of "
    ++ (match v with VNull => lit "null" | _ => lit "undefined" end)
    ++ lit " (reading '" ++ k ++ lit "')";
  abort_message := lit "signal is aborted without reason";
  number_to_string_other _ := [];
  string_to_number _ := nan
|}.

(** ** Vocabulary of the statements *)

(** A decimal numeral is made of digits and, at most, a minus sign. *)
Definition numeral_unit (c : code_unit) : Prop := c = 45 \/ 48 <= c <= 57.

(** The state a click handler leaves, settled or not. *)
Definition world_of {W : Type} (r : Run W) : W :=
  match r with
  | Settled w => w
  | Suspended w => w
  end.


(** The response head arrives in time and its body then never finishes. *)
Definition body_stalls (net : Network) : bool :=
  match net with
  | Responds _ r => match body r with BodyStalls => true | _ => false end
  | _ => false
  end.

(** [undefined] or [null]: what an absent property reads as. *)
Definition nullish (v : Value) : Prop := v = VUndefined \/ v = VNull.

(** ** Data for the examples *)

Definition five (a b c d e : Value) : Value :=
  VObj [(lit "hate", a); (lit "harassment", b); (lit "self-harm", c);
        (lit "sexual", d); (lit "violence", e)].

Definition sample_categories : Value :=
  five (VBool true) (VBool false) (VBool false) (VBool false) (VBool false).

Definition sample_scores : Value :=
  five (VNum 0.92) (VNum 0.31) (VNum 0.002) (VNum 0.01) (VNum 0.12).

(** A body of the shape the moderation endpoint answers with. *)
Definition moderation_body (flagged cats scores : Value) : Value :=
  VObj [(lit "results",
         VArr [VObj [(lit "flagged", flagged);
                     (lit "categories", cats);
                     (lit "category_scores", scores)]])].

Definition sample_body : Value :=
  moderation_body (VBool true) sample_categories sample_scores.

(** A first result with [flagged] left out, and the body that holds it. *)
Definition unflagged_result : Value :=
  VObj [(lit "categories",
         five (VBool false) (VBool false) (VBool false) (VBool false) (VBool false));
        (lit "category_scores", sample_scores)].

Definition unflagged_body : Value := VObj [(lit "results", VArr [unflagged_result])].

(** A body whose first result has no [category_scores]. *)
Definition scoreless_body : Value :=
  VObj [(lit "results",
         VArr [VObj [(lit "flagged", VBool true);
                     (lit "categories", sample_categories)]])].

Definition error_body (msg : string) : Value := VObj [(lit "error", VStr (lit msg))].


(** The message Firefox gives the TypeError of a failed [fetch]. *)
Definition firefox_network_error : jsstring :=
  lit "NetworkError when attempting to fetch resource.".

Definition blank_bar : Bar := mkBar [] [] [].

Definition all_bars : Categories :=
  mkCategories (Some blank_bar) (Some blank_bar) (Some blank_bar)
    (Some blank_bar) (Some blank_bar).

(** The page as loaded, with [text] typed into the text area. *)
Definition page (text : jsstring) : Part000.World :=
  Part000.mkWorld
    (Part000.mkDOM text false (lit "Analyze Text") (lit "none") (lit "none") []
       all_bars)
    [] [].

Definition app_page (text : jsstring) : AppJs.World :=
  AppJs.mkWorld (AppJs.mkDOM text (lit "none") (lit "none") [] all_bars) [] [].

(** ** Vocabulary of the further properties *)

(** The two category objects hold a bar under the same keys. *)
Definition same_bars (cs cs' : Categories) : Prop :=
  forall k, bar_of cs' k = None <-> bar_of cs k = None.

(** What the rendering functions of the configurable script leave alone:
    the text area, the button, the loader, and which bars exist. *)
Definition frame (d d' : Part000.DOM) : Prop :=
  Part000.inputText_value d' = Part000.inputText_value d
  /\ Part000.analyzeBtn_disabled d' = Part000.analyzeBtn_disabled d
  /\ Part000.analyzeBtn_innerHTML d' = Part000.analyzeBtn_innerHTML d
  /\ Part000.loader_display d' = Part000.loader_display d
  /\ same_bars (Part000.categories d) (Part000.categories d').

(** A piece of synchronous code that keeps the frame, whether it returns
    or throws. *)
Definition keeps_frame {A : Type} (m : Eff Part000.DOM A) : Prop :=
  forall d, frame d (snd (m d)).

(** What a whole click leaves alone: the typed text and which bars exist. *)
Definition kept (d d' : Part000.DOM) : Prop :=
  Part000.inputText_value d' = Part000.inputText_value d
  /\ same_bars (Part000.categories d) (Part000.categories d').

(** The key of the response under which each bar finds its data. *)
Definition category_name (k : CategoryKey) : jsstring :=
  match k with
  | key_hate => lit "hate"
  | key_harassment => lit "harassment"
  | key_selfHarm => lit "self-harm"
  | key_sexual => lit "sexual"
  | key_violence => lit "violence"
  end.

(** A step of [app.js] that leaves the display of the result box alone. *)
Definition box_kept {A : Type} (m : Eff AppJs.DOM A) : Prop :=
  forall d, AppJs.resultBox_display (snd (m d)) = AppJs.resultBox_display d.

(** A piece of [app.js] that, when it throws, has left the display of the
    result box alone. *)
Definition box_kept_on_throw {A : Type} (m : Eff AppJs.DOM A) : Prop :=
  forall d e d',
    m d = (Thrown e, d') ->
    AppJs.resultBox_display d' = AppJs.resultBox_display d.

(** The first and the last code unit of a text, when it has any. *)
Definition first_unit (s : jsstring) : option code_unit := hd_error s.

Definition last_unit (s : jsstring) : option code_unit := hd_error (rev s).

(** No white space at either end. *)
Definition tight (s : jsstring) : Prop :=
  (forall c, first_unit s = Some c -> is_white_space c = false)
  /\ (forall c, last_unit s = Some c -> is_white_space c = false).

(** The double of a small non-negative integer. *)
Definition of_integer (k : Z) : float :=
  match k with
  | Zpos p => SF2Prim (S754_finite false p 0)
  | _ => 0%float
  end.

(** The double nearest to [k / 100]: what [JSON.parse] reads from a score
    written with two decimals. *)
Definition hundredths (k : Z) : float := (of_integer k / 100)%float.

(** The bar [updateCategoryBar] paints for a score and a flag, read back
    from a page that has the bar. *)
Definition painted_bar {E : Engine} (score flagged : Value) : Bar :=
  match
    hate (Part000.categories
            (Part000.updateCategoryBar key_hate score flagged
               (Part000.mkDOM [] false [] [] [] [] all_bars)))
  with
  | Some b => b
  | None => blank_bar
  end.

Definition bar_eqb (a b : Bar) : bool :=
  str_eqb (width a) (width b) && str_eqb (innerText a) (innerText b)
  && str_eqb (backgroundColor a) (backgroundColor b).

(** The bar the thresholds of [updateCategoryBar] give a whole
    percentage. *)
Definition percent_bar (k : Z) (flagged : bool) : Bar :=
  let w := decimal (Z.max k 2) ++ lit "%" in
  if flagged then
    mkBar w (Part000.warning_sign ++ lit " " ++ decimal k ++ lit "% - FLAGGED")
      (lit "#ef4444")
  else if 50 <? k then mkBar w (decimal k ++ lit "% - High Risk") (lit "#f59e0b")
  else if 20 <? k then mkBar w (decimal k ++ lit "% - Medium") (lit "#fbbf24")
  else mkBar w (decimal k ++ lit "% - Low") (lit "#10b981").

(** The percentages 0, 1, ..., 100. *)
Definition percentages : list Z := map Z.of_nat (seq 0 101).

(** * Properties *)

(** ** Strings *)

Lemma trimStart_white (s : jsstring) :
  forallb is_white_space s = true -> trimStart s = [].
Proof.
  induction s as [|c s IH]; intros H; [reflexivity|].
  cbn [forallb] in H. apply andb_true_iff in H as [Hc Hs].
  cbn [trimStart]. rewrite Hc. exact (IH Hs).
Qed.

Lemma trim_white (s : jsstring) :
  forallb is_white_space s = true -> trim s = [].
Proof.
  intros H. unfold trim, trimEnd. rewrite (trimStart_white s H). reflexivity.
Qed.

Lemma trimStart_length (s : jsstring) :
  (List.length (trimStart s) <= List.length s)%nat.
Proof.
  induction s as [|c s IH]; cbn [trimStart]; [lia|].
  destruct (is_white_space c); cbn [List.length]; lia.
Qed.

Lemma trim_length (s : jsstring) : js_length (trim s) <= js_length s.
Proof.
  unfold js_length, trim, trimEnd. rewrite length_rev.
  pose proof (trimStart_length (rev (trimStart s))) as H1.
  rewrite length_rev in H1.
  pose proof (trimStart_length s). lia.
Qed.

Lemma substring_prefix (s : jsstring) (n : Z) :
  0 <= n -> substring s 0 n = firstn (Z.to_nat n) s.
Proof.
  intros Hn. unfold substring, js_length.
  set (len := Z.of_nat (List.length s)).
  assert (0 <= len) by (subst len; lia).
  replace (Z.min (Z.max 0 0) len) with 0 by lia.
  replace (Z.min 0 (Z.min (Z.max n 0) len)) with 0 by lia.
  replace (Z.max 0 (Z.min (Z.max n 0) len) - 0) with (Z.min n len) by lia.
  cbn [Z.to_nat skipn].
  destruct (Z.le_ge_cases n len) as [Hle|Hge].
  - rewrite Z.min_l by lia. reflexivity.
  - rewrite Z.min_r by lia. subst len. rewrite Nat2Z.id.
    rewrite firstn_all. symmetry. apply firstn_all2. lia.
Qed.

Lemma includes_head (s p : jsstring) (c : code_unit) :
  includes s (c :: p) = true -> In c s.
Proof.
  induction s as [|d s IH]; cbn [includes starts_with]; [discriminate|].
  intros H. apply orb_true_iff in H as [H|H].
  - apply andb_true_iff in H as [H _]. apply Z.eqb_eq in H. left. exact H.
  - right. exact (IH H).
Qed.

Lemma str_eqb_refl (s : jsstring) : str_eqb s s = true.
Proof.
  induction s as [|c s IH]; [reflexivity|].
  cbn [str_eqb]. rewrite Z.eqb_refl. exact IH.
Qed.

Lemma str_eqb_eq (s t : jsstring) : str_eqb s t = true -> s = t.
Proof.
  revert t. induction s as [|c s IH]; intros [|d t]; cbn [str_eqb];
    try discriminate; [reflexivity|].
  intros H. apply andb_true_iff in H as [Hc Hs].
  apply Z.eqb_eq in Hc. subst d. f_equal. exact (IH t Hs).
Qed.

Lemma string_of_uint_numeral (d : Decimal.uint) :
  Forall numeral_unit (lit (NilEmpty.string_of_uint d)).
Proof.
  induction d; cbn; constructor; try assumption; unfold numeral_unit; lia.
Qed.

Lemma decimal_numeral (z : Z) : Forall numeral_unit (decimal z).
Proof.
  unfold decimal.
  assert (Hu : forall d, Forall numeral_unit (lit (NilZero.string_of_uint d))).
  { intros d. destruct d; try apply string_of_uint_numeral.
    cbn. constructor; [unfold numeral_unit; lia | constructor]. }
  destruct (Z.to_int z) as [d|d]; cbn [NilZero.string_of_int].
  - apply Hu.
  - change (lit (String "-" (NilZero.string_of_uint d)))
      with (45 :: lit (NilZero.string_of_uint d)).
    constructor; [left; reflexivity | apply Hu].
Qed.

Lemma decimal_not_letter (z : Z) (c : code_unit) :
  57 < c -> ~ In c (decimal z).
Proof.
  intros Hc Hin.
  pose proof (decimal_numeral z) as H.
  rewrite Forall_forall in H. specialize (H c Hin).
  unfold numeral_unit in H. lia.
Qed.

(** ** The serialised body *)

Lemma quote_unit_length (c : code_unit) :
  (1 <= List.length (quote_unit c) <= 6)%nat.
Proof.
  unfold quote_unit, unicode_escape.
  repeat match goal with
         | |- context [if ?b then _ else _] => destruct b
         end; cbn [List.length]; lia.
Qed.

Lemma quote_units_length_fuel (n : nat) (s : jsstring) :
  (List.length s <= n)%nat ->
  (List.length s <= List.length (quote_units s) <= 6 * List.length s)%nat.
Proof.
  revert s. induction n as [|n IH]; intros s Hn.
  - destruct s; [cbn; lia | cbn in Hn; lia].
  - destruct s as [|c rest]; [cbn; lia|].
    cbn [quote_units]. destruct rest as [|d rest'].
    + pose proof (quote_unit_length c). cbn [List.length]. lia.
    + cbn [List.length] in Hn.
      destruct (is_leading_surrogate c && is_trailing_surrogate d).
      * assert (Hr : (List.length rest' <= n)%nat) by lia.
        specialize (IH rest' Hr). cbn [List.length]. lia.
      * assert (Hr : (List.length (d :: rest') <= n)%nat) by (cbn; lia).
        specialize (IH (d :: rest') Hr).
        pose proof (quote_unit_length c).
        rewrite length_app. cbn [List.length] in *. lia.
Qed.

(** The body is the text quoted and wrapped: at least eleven code units
    longer than the text, and at most six times as long plus eleven. *)
Lemma stringify_text_length (text : jsstring) :
  js_length text + 11 <= js_length (stringify_text text)
  <= 6 * js_length text + 11.
Proof.
  pose proof (quote_units_length_fuel (List.length text) text (le_n _)) as H.
  unfold stringify_text, js_length. rewrite !length_app.
  change (List.length (lit "{")) with 1%nat.
  change (List.length (lit "text")) with 4%nat.
  change (List.length (lit ":")) with 1%nat.
  change (List.length (lit "}")) with 1%nat.
  change (List.length dquote) with 1%nat.
  lia.
Qed.

(** ** Validation of the input *)

Section Validation.
Context {E : Engine}.

Lemma truthy_empty_text : truthy (VStr []) = false.
Proof. reflexivity. Qed.

Lemma truthy_text (s : jsstring) : s <> [] -> truthy (VStr s) = true.
Proof. destruct s; [congruence | reflexivity]. Qed.

(** A click on a text that passes both checks: the loader is shown, the
    page reset and the button disabled, one request carrying the trimmed
    text is sent, and the rest depends on how the call settles. *)
Lemma handleAnalyzeClick_valid (net : Network) (w : Part000.World) :
  trim (Part000.inputText_value (Part000.dom w)) <> [] ->
  js_length (trim (Part000.inputText_value (Part000.dom w)))
    <= Part000.MAX_INPUT_LENGTH Part000.CONFIG ->
  let text := trim (Part000.inputText_value (Part000.dom w)) in
  let call := Part000.analyzeText text net in
  let w2 :=
    Part000.mkWorld
      (Part000.setButtonState true
         (Part000.resetUI (Part000.showLoader true (Part000.dom w))))
      (Part000.alerts w) (Part000.requests w ++ [sent call]) in
  Part000.handleAnalyzeClick net w =
  match outcome call with
  | Fulfilled data =>
      match Part000.processApiResponse data (Part000.dom w2) with
      | (Ok _, d) =>
          Settled (Part000.finish (Part000.on_dom (fun _ => d) w2))
      | (Thrown error, d) =>
          Settled (Part000.finish
                     (Part000.on_dom (Part000.handleError error)
                        (Part000.on_dom (fun _ => d) w2)))
      end
  | Rejected error =>
      Settled (Part000.finish (Part000.on_dom (Part000.handleError error) w2))
  | Pending => Suspended w2
  end.
Proof.
  intros Hne Hlen text call w2.
  unfold Part000.handleAnalyzeClick.
  fold text. rewrite (truthy_text text Hne). cbn [negb].
  destruct (js_length text >? Part000.MAX_INPUT_LENGTH Part000.CONFIG) eqn:Hgt.
  - apply Z.gtb_lt in Hgt. subst text. lia.
  - reflexivity.
Qed.

Lemma handleAnalyzeClick_empty (net : Network) (w : Part000.World) :
  trim (Part000.inputText_value (Part000.dom w)) = [] ->
  Part000.handleAnalyzeClick net w =
  Settled (Part000.mkWorld (Part000.dom w)
             (Part000.alerts w ++ [lit "Please enter some text to analyze."])
             (Part000.requests w)).
Proof.
  intros Hempty. unfold Part000.handleAnalyzeClick.
  rewrite Hempty, truthy_empty_text. reflexivity.
Qed.

Lemma handleAnalyzeClick_too_long (net : Network) (w : Part000.World) :
  Part000.MAX_INPUT_LENGTH Part000.CONFIG
    < js_length (trim (Part000.inputText_value (Part000.dom w))) ->
  Part000.handleAnalyzeClick net w =
  Settled (Part000.mkWorld (Part000.dom w)
             (Part000.alerts w
              ++ [lit "Text is too long. Maximum 2000 characters allowed."])
             (Part000.requests w)).
Proof.
  intros Hlong. unfold Part000.handleAnalyzeClick.
  destruct (trim (Part000.inputText_value (Part000.dom w))) as [|c s] eqn:Ht.
  - cbn in Hlong. lia.
  - rewrite truthy_text by discriminate. cbn [negb].
    apply Z.gtb_lt in Hlong. rewrite Hlong. reflexivity.
Qed.

(** C3: a text that is empty or made of white space only is answered with
    the alert asking for some text, and nothing else happens: the page is
    as it was and no request has been handed to [fetch].  Both scripts do
    so. *)
Theorem blank_input_is_refused (net : Network) (w : Part000.World)
    (a : AppJs.World) :
  forallb is_white_space (Part000.inputText_value (Part000.dom w)) = true ->
  forallb is_white_space (AppJs.inputText_value (AppJs.dom a)) = true ->
  Part000.handleAnalyzeClick net w =
    Settled (Part000.mkWorld (Part000.dom w)
               (Part000.alerts w ++ [lit "Please enter some text to analyze."])
               (Part000.requests w))
  /\ AppJs.clickListener net a =
    Settled (AppJs.mkWorld (AppJs.dom a)
               (AppJs.alerts a ++ [lit "Please enter some text to analyze."])
               (AppJs.requests a)).
Proof.
  intros Hw Ha. split.
  - exact (handleAnalyzeClick_empty net w (trim_white _ Hw)).
  - unfold AppJs.clickListener. rewrite (trim_white _ Ha).
    rewrite truthy_empty_text. reflexivity.
Qed.

(** C10: when the trimmed text is empty or longer than the maximum, the
    handler shows one alert and returns: the page (loader, verdict, result
    box, button, bars) is the one before the click, and no request was
    made, so [analyzeText] was not called. *)
Theorem validation_failure_is_atomic (net : Network) (w : Part000.World) :
  trim (Part000.inputText_value (Part000.dom w)) = []
  \/ Part000.MAX_INPUT_LENGTH Part000.CONFIG
     < js_length (trim (Part000.inputText_value (Part000.dom w))) ->
  exists msg,
    Part000.handleAnalyzeClick net w =
    Settled (Part000.mkWorld (Part000.dom w) (Part000.alerts w ++ [msg])
               (Part000.requests w))
    /\ (msg = lit "Please enter some text to analyze."
        \/ msg = lit "Text is too long. Maximum 2000 characters allowed.").
Proof.
  intros [Hempty|Hlong]; eexists; split.
  - exact (handleAnalyzeClick_empty net w Hempty).
  - left. reflexivity.
  - exact (handleAnalyzeClick_too_long net w Hlong).
  - right. reflexivity.
Qed.

(** C6, as the script has it: the [input] listener cuts the text area
    down to the maximum of 2000 code units, and a click whose trimmed text
    is still longer is refused with an alert; so whatever the text area
    holds, a click sends at most one request, and the text it carries is
    the trimmed input, at most 2000 code units long.  The bound is on the
    text, not on the body: the body is the text quoted and wrapped by
    [JSON.stringify], at least 11 code units longer than the text and at
    most 12011 code units long. *)
Theorem submitted_text_is_bounded (net : Network) (w : Part000.World)
    (d : Part000.DOM) :
  Part000.MAX_INPUT_LENGTH Part000.CONFIG = 2000
  /\ js_length (Part000.inputText_value (Part000.inputListener d)) <= 2000
  /\ (2000 < js_length (Part000.inputText_value d) ->
      Part000.inputText_value (Part000.inputListener d)
      = firstn 2000 (Part000.inputText_value d))
  /\ (2000 < js_length (trim (Part000.inputText_value (Part000.dom w))) ->
      Part000.requests (world_of (Part000.handleAnalyzeClick net w))
      = Part000.requests w)
  /\ (Part000.requests (world_of (Part000.handleAnalyzeClick net w))
      = Part000.requests w
      \/ exists request,
           Part000.requests (world_of (Part000.handleAnalyzeClick net w))
           = Part000.requests w ++ [request]
           /\ body_text request = trim (Part000.inputText_value (Part000.dom w))
           /\ js_length (body_text request) <= 2000
           /\ js_length (body_text request) + 11
              <= js_length (request_body request) <= 12011).
Proof.
  split; [reflexivity|]. split; [|split; [|split]].
  - unfold Part000.inputListener. change (Part000.MAX_INPUT_LENGTH Part000.CONFIG) with 2000.
    destruct (js_length (Part000.inputText_value d) >? 2000) eqn:Hgt.
    + cbn [Part000.set_inputText_value Part000.inputText_value].
      rewrite substring_prefix by lia. unfold js_length.
      rewrite length_firstn. lia.
    + rewrite Z.gtb_ltb in Hgt. apply Z.ltb_ge in Hgt. exact Hgt.
  - intros Hlong. unfold Part000.inputListener.
    change (Part000.MAX_INPUT_LENGTH Part000.CONFIG) with 2000.
    apply Z.gtb_lt in Hlong. rewrite Hlong.
    cbn [Part000.set_inputText_value Part000.inputText_value].
    apply substring_prefix. lia.
  - intros Hlong.
    rewrite (handleAnalyzeClick_too_long net w Hlong). reflexivity.
  - destruct (trim (Part000.inputText_value (Part000.dom w))) as [|c s] eqn:Ht.
    + left. rewrite (handleAnalyzeClick_empty net w Ht). reflexivity.
    + destruct (Z.le_gt_cases (js_length (c :: s)) 2000) as [Hle|Hgt].
      * right. exists (sent (Part000.analyzeText (c :: s) net)).
        assert (Hsent : body_text (sent (Part000.analyzeText (c :: s) net)) = c :: s).
        { unfold Part000.analyzeText.
          destruct (fetch _ net) as [f ab]. reflexivity. }
        rewrite handleAnalyzeClick_valid; rewrite Ht; try discriminate; try exact Hle.
        split; [|split; [exact Hsent | split; [rewrite Hsent; exact Hle|]]].
        -- destruct (outcome (Part000.analyzeText (c :: s) net)) as [data|e|];
             try reflexivity.
           destruct (Part000.processApiResponse data _) as [[u|e] d']; reflexivity.
        -- unfold request_body. rewrite Hsent.
           pose proof (stringify_text_length (c :: s)). lia.
      * left. rewrite handleAnalyzeClick_too_long; [reflexivity|].
        rewrite Ht. exact Hgt.
Qed.

End Validation.

(** ** The call to the back end *)

Section Call.
Context {E : Engine}.

Lemma status_message_not_transport (st : Z) :
  includes (lit "Server error: " ++ decimal st) (lit "Failed to fetch") = false.
Proof.
  destruct (includes _ _) eqn:H; [|reflexivity]. exfalso.
  change (lit "Failed to fetch") with (70 :: lit "ailed to fetch") in H.
  apply includes_head in H. apply in_app_or in H as [H|H].
  - cbn in H. repeat (destruct H as [H|H]; [discriminate H|]). exact H.
  - revert H. apply decimal_not_letter. lia.
Qed.

Ltac status_not_transport :=
  match goal with
  | |- context [if ?c then _ else _] =>
      replace c with false by (symmetry; apply status_message_not_transport)
  end.

Lemma analyzeText_sent (text : jsstring) (net : Network) :
  sent (Part000.analyzeText text net)
  = mkRequest (Part000.BACKEND_URL Part000.CONFIG) (lit "POST")
      (lit "application/json") text.
Proof.
  unfold Part000.analyzeText. destruct (fetch _ net) as [f ab]. reflexivity.
Qed.


(** A response head that arrives in time with a status outside 200..299,
    by what reading its body gives. *)
Lemma analyzeText_not_ok (text : jsstring) (t : Z) (r : Response) :
  t < Part000.REQUEST_TIMEOUT Part000.CONFIG ->
  ok r = false ->
  outcome (Part000.analyzeText text (Responds t r))
  = match body r with
    | BodyStalls => Pending
    | BodyFails _ =>
        Rejected (new_Error (lit "Server error: " ++ decimal (status r)))
    | BodyJson data =>
        match get data (lit "error") with
        | Thrown e =>
            if str_eqb (name e) (lit "AbortError")
            then Rejected (new_Error Part000.timeout_message)
            else if includes (message e) (lit "Failed to fetch")
            then Rejected (new_Error Part000.connect_message)
            else Rejected e
        | Ok supplied =>
            if truthy supplied then
              if includes (to_string supplied) (lit "Failed to fetch")
              then Rejected (new_Error Part000.connect_message)
              else Rejected (new_Error (to_string supplied))
            else
              Rejected (new_Error (lit "Server error: " ++ decimal (status r)))
        end
    end.
Proof.
  intros Ht Hbad. unfold Part000.analyzeText, fetch.
  apply Z.ltb_lt in Ht. rewrite Ht, Hbad. cbn [negb outcome].
  unfold json. destruct (body r) as [data|e|].
  - destruct (get data (lit "error")) as [supplied|e].
    + destruct (truthy supplied).
      * change (name (new_Error (to_string supplied))) with (lit "Error").
        change (str_eqb (lit "Error") (lit "AbortError")) with false.
        cbn [message new_Error]. destruct (includes _ _); reflexivity.
      * change (name (new_Error (lit "Server error: " ++ decimal (status r))))
          with (lit "Error").
        change (str_eqb (lit "Error") (lit "AbortError")) with false.
        cbn [message new_Error]. status_not_transport. reflexivity.
    + reflexivity.
  - cbn [get lookup find].
    change (truthy (lookup [] (lit "error"))) with false. cbv iota.
    change (name (new_Error (lit "Server error: " ++ decimal (status r))))
      with (lit "Error").
    change (str_eqb (lit "Error") (lit "AbortError")) with false.
    cbn [message new_Error]. status_not_transport. reflexivity.
  - reflexivity.
Qed.

Lemma analyzeText_transport (text : jsstring) (t : Z) (msg : jsstring) :
  t < Part000.REQUEST_TIMEOUT Part000.CONFIG ->
  Part000.analyzeText text (TransportFails t msg)
  = mkCall (mkRequest (Part000.BACKEND_URL Part000.CONFIG) (lit "POST")
              (lit "application/json") text)
      false
      (if includes msg (lit "Failed to fetch")
       then Rejected (new_Error Part000.connect_message)
       else Rejected (mkError (lit "TypeError") msg)).
Proof.
  intros Ht. unfold Part000.analyzeText, fetch.
  apply Z.ltb_lt in Ht. rewrite Ht.
  cbn [name message].
  change (str_eqb (lit "TypeError") (lit "AbortError")) with false.
  destruct (includes msg (lit "Failed to fetch")); reflexivity.
Qed.

Lemma analyzeText_ok (text : jsstring) (t : Z) (r : Response) (data : Value) :
  t < Part000.REQUEST_TIMEOUT Part000.CONFIG ->
  ok r = true ->
  body r = BodyJson data ->
  Part000.analyzeText text (Responds t r)
  = mkCall (mkRequest (Part000.BACKEND_URL Part000.CONFIG) (lit "POST")
              (lit "application/json") text)
      false (Fulfilled data).
Proof.
  intros Ht Hok Hbody. unfold Part000.analyzeText, fetch, json.
  apply Z.ltb_lt in Ht. rewrite Ht, Hok, Hbody. reflexivity.
Qed.

(** How [handleError] words the three messages of [analyzeText]. *)
Lemma handleError_timeout (d : Part000.DOM) :
  Part000.handleError (new_Error Part000.timeout_message) d
  = Part000.set_resultBox_display (lit "block")
      (Part000.set_verdictText_innerHTML
         (Part000.error_block
            (Part000.warning_sign ++ lit " Error: " ++ Part000.timeout_message
             ++ Part000.timeout_tip))
         d).
Proof.
  unfold Part000.handleError. cbn [message new_Error].
  replace (includes Part000.timeout_message (lit "timeout")) with true
    by (vm_compute; reflexivity).
  rewrite <- !app_assoc. reflexivity.
Qed.

Lemma handleError_connect (d : Part000.DOM) :
  Part000.handleError (new_Error Part000.connect_message) d
  = Part000.set_resultBox_display (lit "block")
      (Part000.set_verdictText_innerHTML
         (Part000.error_block
            (Part000.warning_sign ++ lit " Error: " ++ Part000.connect_message
             ++ Part000.connect_tip))
         d).
Proof.
  unfold Part000.handleError. cbn [message new_Error].
  replace (includes Part000.connect_message (lit "timeout")) with false
    by (vm_compute; reflexivity).
  replace (includes Part000.connect_message (lit "connect")) with true
    by (vm_compute; reflexivity).
  rewrite <- !app_assoc. reflexivity.
Qed.



(** C5, as the script has it: a transport failure whose message contains
    "Failed to fetch" rejects the call with the connection error, without
    any abort.  Its message is neither the timeout message nor a
    status-derived one, and [handleError] words it with the tip about the
    back end's address. *)
Theorem transport_failure_is_reported (text : jsstring) (t : Z)
    (msg : jsstring) (d : Part000.DOM) :
  t < Part000.REQUEST_TIMEOUT Part000.CONFIG ->
  includes msg (lit "Failed to fetch") = true ->
  outcome (Part000.analyzeText text (TransportFails t msg))
  = Rejected (new_Error Part000.connect_message)
  /\ signal_aborted (Part000.analyzeText text (TransportFails t msg)) = false
  /\ Part000.connect_message <> Part000.timeout_message
  /\ (forall st, Part000.connect_message <> lit "Server error: " ++ decimal st)
  /\ Part000.handleError (new_Error Part000.connect_message) d
     = Part000.set_resultBox_display (lit "block")
         (Part000.set_verdictText_innerHTML
            (Part000.error_block
               (Part000.warning_sign ++ lit " Error: "
                ++ Part000.connect_message ++ Part000.connect_tip))
            d).
Proof.
  intros Ht Hinc. rewrite (analyzeText_transport text t msg Ht), Hinc.
  split; [reflexivity|]. split; [reflexivity|].
  split; [discriminate|]. split; [intros st; discriminate|].
  apply handleError_connect.
Qed.

End Call.

(** ** Processing the response *)

Section Processing.
Context {E : Engine}.

Lemma processApiResponse_invalid (data : Value) (d : Part000.DOM) :
  truthy data = false
  \/ (exists results,
        get data (lit "results") = Ok results /\ truthy results = false)
  \/ (exists results first,
        get data (lit "results") = Ok results
        /\ get results index0 = Ok first /\ truthy first = false) ->
  Part000.processApiResponse data d
  = (Thrown (new_Error (lit "Invalid response format from server")), d).
Proof.
  intros H. unfold Part000.processApiResponse, bind, read, ret, throw.
  destruct (truthy data) eqn:Hd; cbn [negb]; [|reflexivity].
  destruct H as [H|[(results & Hr & Hf)|(results & first & Hr & H0 & Hf)]].
  - discriminate H.
  - rewrite Hr, Hf. reflexivity.
  - rewrite Hr. destruct (truthy results); cbn [negb]; [|reflexivity].
    rewrite H0, Hf. reflexivity.
Qed.


(** With a first result in place, an absent [category_scores] or
    [categories] stops the processing at the first bar, on the engine's
    TypeError. *)
Lemma processApiResponse_absent_part (data results result flagged cats scores : Value)
    (d : Part000.DOM) :
  truthy data = true ->
  get data (lit "results") = Ok results -> truthy results = true ->
  get results index0 = Ok result -> truthy result = true ->
  get result (lit "flagged") = Ok flagged ->
  get result (lit "categories") = Ok cats ->
  get result (lit "category_scores") = Ok scores ->
  nullish scores \/ nullish cats ->
  exists base,
    nullish base
    /\ Part000.processApiResponse data d
       = (Thrown (mkError (lit "TypeError") (type_error_message base (lit "hate"))),
          Part000.displayVerdict flagged d).
Proof.
  intros Hd Hr Hrt H0 H0t Hf Hc Hs Habs.
  unfold Part000.processApiResponse, bind, read, ret, throw, assign.
  rewrite Hd, Hr, Hrt, H0, H0t, Hf, Hc, Hs. cbn [negb].
  assert (Hn : forall v, nullish v ->
            get v (lit "hate")
            = Thrown (mkError (lit "TypeError") (type_error_message v (lit "hate")))).
  { intros v [-> | ->]; reflexivity. }
  destruct (get scores (lit "hate")) as [s|e] eqn:Hgs.
  - destruct Habs as [Hn1|Hn2].
    + rewrite (Hn scores Hn1) in Hgs. discriminate Hgs.
    + exists cats. split; [exact Hn2|]. rewrite (Hn cats Hn2). reflexivity.
  - destruct scores; try discriminate Hgs.
    + exists VUndefined. split; [left; reflexivity|].
      cbn [get] in Hgs. injection Hgs as <-. reflexivity.
    + exists VNull. split; [right; reflexivity|].
      cbn [get] in Hgs. injection Hgs as <-. reflexivity.
Qed.






(** C2, as the script has it: a parsed body that is falsy, or whose
    [results] is falsy, or whose [results[0]] is falsy, makes the
    processing throw the [Error] "Invalid response format from server"
    before the page is touched; a status-200 body that is an object without
    [results] is such a body.  Inside [results[0]] nothing is checked: an
    absent [category_scores] or [categories] ends in the engine's TypeError
    once the verdict is painted. *)
Theorem malformed_response_is_rejected (text : jsstring) (t : Z) (r : Response)
    (data : Value) (d : Part000.DOM) :
  t < Part000.REQUEST_TIMEOUT Part000.CONFIG ->
  ok r = true -> body r = BodyJson data ->
  (truthy data = false
   \/ (exists results,
         get data (lit "results") = Ok results /\ truthy results = false)
   \/ (exists results first,
         get data (lit "results") = Ok results
         /\ get results index0 = Ok first /\ truthy first = false)) ->
  outcome (Part000.analyzeText text (Responds t r)) = Fulfilled data
  /\ Part000.processApiResponse data d
     = (Thrown (new_Error (lit "Invalid response format from server")), d)
  /\ (forall fields,
       lookup fields (lit "results") = VUndefined ->
       Part000.processApiResponse (VObj fields) d
       = (Thrown (new_Error (lit "Invalid response format from server")), d))
  /\ (forall body results result flagged cats scores,
       truthy body = true ->
       get body (lit "results") = Ok results -> truthy results = true ->
       get results index0 = Ok result -> truthy result = true ->
       get result (lit "flagged") = Ok flagged ->
       get result (lit "categories") = Ok cats ->
       get result (lit "category_scores") = Ok scores ->
       nullish scores \/ nullish cats ->
       exists e,
         Part000.processApiResponse body d
         = (Thrown e, Part000.displayVerdict flagged d)
         /\ name e = lit "TypeError").
Proof.
  intros Ht Hok Hbody Hbad.
  rewrite (analyzeText_ok text t r data Ht Hok Hbody).
  split; [reflexivity|]. split; [exact (processApiResponse_invalid data d Hbad)|].
  split.
  - intros fields Hl. apply processApiResponse_invalid. right. left.
    exists VUndefined. split; [cbn [get]; rewrite Hl|]; reflexivity.
  - intros body0 results result flagged cats scores Hd Hr Hrt H0 H0t Hf Hc Hs Habs.
    destruct (processApiResponse_absent_part body0 results result flagged cats
                scores d Hd Hr Hrt H0 H0t Hf Hc Hs Habs) as (base & _ & Hrun).
    eexists. split; [exact Hrun | reflexivity].
Qed.


End Processing.

(** ** The click, from start to end *)

Section Click.
Context {E : Engine}.

Lemma analyzeText_settles (text : jsstring) (net : Network) :
  body_stalls net = false ->
  outcome (Part000.analyzeText text net) <> Pending.
Proof.
  intros Hb. unfold Part000.analyzeText, fetch, json.
  destruct net as [t r|t msg|]; cbn [body_stalls] in Hb.
  - destruct (t <? Part000.REQUEST_TIMEOUT Part000.CONFIG); [|discriminate].
    destruct (body r) as [data|e|]; [| |discriminate Hb].
    + destruct (ok r); cbn [negb outcome]; [discriminate|].
      destruct (get data (lit "error")) as [supplied|e]; cbn [outcome];
        repeat match goal with
               | |- context [if ?c then _ else _] => destruct c
               end; discriminate.
    + destruct (ok r); cbn [negb outcome];
        [|destruct (get (VObj []) (lit "error")) as [supplied|e']];
        repeat match goal with
               | |- context [if ?c then _ else _] => destruct c
               end; discriminate.
  - destruct (t <? Part000.REQUEST_TIMEOUT Part000.CONFIG); cbn [outcome];
      repeat match goal with
             | |- context [if ?c then _ else _] => destruct c
             end; discriminate.
  - discriminate.
Qed.

(** The [finally] block leaves the loader hidden and the button enabled. *)
Lemma finish_resets (w : Part000.World) :
  Part000.loader_display (Part000.dom (Part000.finish w)) = lit "none"
  /\ Part000.analyzeBtn_disabled (Part000.dom (Part000.finish w)) = false
  /\ Part000.analyzeBtn_innerHTML (Part000.dom (Part000.finish w))
     = lit "Analyze Text"
  /\ Part000.requests (Part000.finish w) = Part000.requests w
  /\ Part000.alerts (Part000.finish w) = Part000.alerts w.
Proof. repeat split; reflexivity. Qed.

(** C8: once a click has passed validation and its request is out, the
    handler runs to its end however the call settles (a value, any error,
    an abort), and it ends with the loader hidden and the button enabled
    and labelled again.  The call settles whenever the body of a response
    that came in time does not stall. *)
Theorem indicator_is_reset (net : Network) (w : Part000.World) :
  trim (Part000.inputText_value (Part000.dom w)) <> [] ->
  js_length (trim (Part000.inputText_value (Part000.dom w)))
    <= Part000.MAX_INPUT_LENGTH Part000.CONFIG ->
  body_stalls net = false ->
  exists w',
    Part000.handleAnalyzeClick net w = Settled w'
    /\ Part000.loader_display (Part000.dom w') = lit "none"
    /\ Part000.analyzeBtn_disabled (Part000.dom w') = false
    /\ Part000.analyzeBtn_innerHTML (Part000.dom w') = lit "Analyze Text"
    /\ Part000.requests w'
       = Part000.requests w
         ++ [mkRequest (Part000.BACKEND_URL Part000.CONFIG) (lit "POST")
               (lit "application/json")
               (trim (Part000.inputText_value (Part000.dom w)))].
Proof.
  intros Hne Hlen Hb.
  rewrite (handleAnalyzeClick_valid net w Hne Hlen). cbv zeta.
  pose proof (analyzeText_settles
                (trim (Part000.inputText_value (Part000.dom w))) net Hb) as Hs.
  rewrite analyzeText_sent.
  destruct (outcome (Part000.analyzeText _ net)) as [data|e|]; [| |congruence].
  - destruct (Part000.processApiResponse data _) as [[u|e] d'];
      eexists; (split; [reflexivity|]); repeat split; reflexivity.
  - eexists. split; [reflexivity|]. repeat split; reflexivity.
Qed.

(** While the body of a response stalls the handler stays suspended, with
    the loader shown and the button disabled. *)
Lemma stalled_body_suspends (t : Z) (st : Z) (w : Part000.World) :
  trim (Part000.inputText_value (Part000.dom w)) <> [] ->
  js_length (trim (Part000.inputText_value (Part000.dom w)))
    <= Part000.MAX_INPUT_LENGTH Part000.CONFIG ->
  t < Part000.REQUEST_TIMEOUT Part000.CONFIG ->
  exists w',
    Part000.handleAnalyzeClick (Responds t (mkResponse st BodyStalls)) w
    = Suspended w'
    /\ Part000.loader_display (Part000.dom w') = lit "block"
    /\ Part000.analyzeBtn_disabled (Part000.dom w') = true.
Proof.
  intros Hne Hlen Ht.
  rewrite (handleAnalyzeClick_valid _ w Hne Hlen). cbv zeta.
  assert (Hp : outcome (Part000.analyzeText
                          (trim (Part000.inputText_value (Part000.dom w)))
                          (Responds t (mkResponse st BodyStalls))) = Pending).
  { unfold Part000.analyzeText, fetch, json. apply Z.ltb_lt in Ht. rewrite Ht.
    cbn [body]. destruct (ok _); reflexivity. }
  rewrite Hp. eexists. split; [reflexivity|]. split; reflexivity.
Qed.

End Click.

(** ** The two scripts compared *)

Section Comparison.
Context {E : Engine}.

Lemma app_analyzeText_sent (text : jsstring) (net : Network) :
  sent (AppJs.analyzeText text net)
  = mkRequest AppJs.BACKEND_URL (lit "POST") (lit "application/json") text.
Proof.
  unfold AppJs.analyzeText. destruct (fetch 10000 net) as [f ab]. reflexivity.
Qed.



(** [app.js] hides the loader again at the end of every click whose call
    settles. *)
Lemma app_loader_is_reset (net : Network) (a : AppJs.World) :
  trim (AppJs.inputText_value (AppJs.dom a)) <> [] ->
  body_stalls net = false ->
  exists a',
    AppJs.clickListener net a = Settled a'
    /\ AppJs.loader_display (AppJs.dom a') = lit "none".
Proof.
  intros Hne Hb. unfold AppJs.clickListener.
  rewrite (truthy_text _ Hne). cbn [negb].
  assert (Hs : outcome (AppJs.analyzeText
                          (trim (AppJs.inputText_value (AppJs.dom a))) net)
               <> Pending).
  { unfold AppJs.analyzeText, fetch, json.
    destruct net as [t r|t msg|]; cbn [body_stalls] in Hb.
    - destruct (t <? 10000); [|discriminate].
      destruct (ok r); cbn [negb outcome]; [|discriminate].
      destruct (body r); [discriminate | discriminate | discriminate Hb].
    - destruct (t <? 10000); discriminate.
    - discriminate. }
  destruct (outcome (AppJs.analyzeText _ net)) as [data|e|]; [| |congruence].
  - destruct (AppJs.processApiResponse data _) as [[u|e] d'];
      eexists; split; reflexivity.
  - eexists. split; reflexivity.
Qed.


End Comparison.

(** ** Runs on concrete inputs *)

Lemma blank_input_is_refused_witness :
  forallb is_white_space (lit "   ") = true
  /\ Part000.handleAnalyzeClick (E := example_engine) Silent (page (lit "   "))
     = Settled (Part000.mkWorld (Part000.dom (page (lit "   ")))
                  [lit "Please enter some text to analyze."] [])
  /\ AppJs.clickListener (E := example_engine) Silent (app_page (lit "   "))
     = Settled (AppJs.mkWorld (AppJs.dom (app_page (lit "   ")))
                  [lit "Please enter some text to analyze."] []).
Proof.
  split; [reflexivity|].
  apply (@blank_input_is_refused example_engine Silent (page (lit "   "))
           (app_page (lit "   "))); reflexivity.
Defined.

Lemma validation_failure_is_atomic_witness :
  Part000.MAX_INPUT_LENGTH Part000.CONFIG
    < js_length (trim (repeat 97 2001))
  /\ exists msg,
       Part000.handleAnalyzeClick (E := example_engine) Silent (page (repeat 97 2001))
       = Settled (Part000.mkWorld (Part000.dom (page (repeat 97 2001))) [msg] [])
       /\ (msg = lit "Please enter some text to analyze."
           \/ msg = lit "Text is too long. Maximum 2000 characters allowed.").
Proof.
  split; [vm_compute; reflexivity|].
  apply (@validation_failure_is_atomic example_engine Silent (page (repeat 97 2001))).
  right. vm_compute. reflexivity.
Defined.



Lemma transport_failure_is_reported_witness :
  includes (lit "Failed to fetch") (lit "Failed to fetch") = true
  /\ outcome
       (Part000.analyzeText (E := example_engine) (lit "you")
          (TransportFails 120 (lit "Failed to fetch")))
     = Rejected (new_Error Part000.connect_message).
Proof.
  split; [reflexivity|].
  destruct (@transport_failure_is_reported example_engine (lit "you") 120
              (lit "Failed to fetch") (Part000.dom (page (lit "you"))))
    as (Hrejected & _); [reflexivity | reflexivity | exact Hrejected].
Defined.

Lemma malformed_response_is_rejected_witness :
  get (E := example_engine) (VObj []) (lit "results") = Ok VUndefined
  /\ Part000.processApiResponse (E := example_engine) (VObj [])
       (Part000.dom (page (lit "you")))
     = (Thrown (new_Error (lit "Invalid response format from server")),
        Part000.dom (page (lit "you"))).
Proof.
  split; [reflexivity|].
  destruct (@malformed_response_is_rejected example_engine (lit "you") 120
              (mkResponse 200 (BodyJson (VObj []))) (VObj [])
              (Part000.dom (page (lit "you"))))
    as (_ & Hthrown & _);
    [reflexivity | reflexivity | reflexivity | | exact Hthrown].
  right. left. exists VUndefined. split; reflexivity.
Defined.


Lemma indicator_is_reset_witness :
  exists w',
    Part000.handleAnalyzeClick (E := example_engine)
      (Responds 120 (mkResponse 200 (BodyJson sample_body)))
      (page (lit " you are awful "))
    = Settled w'
    /\ Part000.loader_display (Part000.dom w') = lit "none"
    /\ Part000.analyzeBtn_disabled (Part000.dom w') = false
    /\ Part000.analyzeBtn_innerHTML (Part000.dom w') = lit "Analyze Text"
    /\ Part000.requests w'
       = [mkRequest (Part000.BACKEND_URL Part000.CONFIG) (lit "POST")
            (lit "application/json") (lit "you are awful")].
Proof.
  apply (@indicator_is_reset example_engine
           (Responds 120 (mkResponse 200 (BodyJson sample_body)))
           (page (lit " you are awful "))).
  - vm_compute. discriminate.
  - vm_compute. discriminate.
  - reflexivity.
Defined.


(** Against C2 as stated: an answer without [flagged] is not refused, it
    is read as not flagged and rendered. *)
Lemma absent_flagged_is_accepted :
  get (E := example_engine) unflagged_result (lit "flagged") = Ok VUndefined
  /\ outcome
       (Part000.analyzeText (E := example_engine) (lit "you")
          (Responds 120 (mkResponse 200 (BodyJson unflagged_body))))
     = Fulfilled unflagged_body
  /\ fst (Part000.processApiResponse (E := example_engine) unflagged_body
            (Part000.dom (page (lit "you")))) = Ok tt
  /\ Part000.verdictText_innerHTML
       (snd (Part000.processApiResponse (E := example_engine) unflagged_body
               (Part000.dom (page (lit "you")))))
     = Part000.safe_banner.
Proof. repeat split; vm_compute; reflexivity. Qed.


(** Against C5 as stated: a transport failure worded otherwise is passed
    on as it came, and [handleError] shows it without the tip on the
    connection. *)
Lemma transport_failure_unrecognised :
  outcome
    (Part000.analyzeText (E := example_engine) (lit "you")
       (TransportFails 120 firefox_network_error))
  = Rejected (mkError (lit "TypeError") firefox_network_error)
  /\ mkError (lit "TypeError") firefox_network_error
     <> new_Error Part000.connect_message
  /\ Part000.verdictText_innerHTML
       (Part000.handleError
          (mkError (lit "TypeError") firefox_network_error)
          (Part000.dom (page (lit "you"))))
     = Part000.error_block
         (Part000.warning_sign ++ lit " Error: " ++ firefox_network_error).
Proof.
  split; [vm_compute; reflexivity|].
  split; [discriminate | vm_compute; reflexivity].
Qed.


(** Against C6 as stated: a text of 2000 code units passes validation and
    the body of its request is longer than 2000, by the eleven code units
    of the wrapping when nothing needs an escape, and twice as long and
    more when every unit does. *)
Lemma accepted_body_exceeds_the_maximum :
  Part000.requests
    (world_of (Part000.handleAnalyzeClick (E := example_engine) Silent
                 (page (repeat 97 2000))))
  = [mkRequest (Part000.BACKEND_URL Part000.CONFIG) (lit "POST")
       (lit "application/json") (repeat 97 2000)]
  /\ js_length
       (request_body
          (mkRequest (Part000.BACKEND_URL Part000.CONFIG) (lit "POST")
             (lit "application/json") (repeat 97 2000))) = 2011
  /\ Part000.requests
       (world_of (Part000.handleAnalyzeClick (E := example_engine) Silent
                    (page (repeat 34 2000))))
     = [mkRequest (Part000.BACKEND_URL Part000.CONFIG) (lit "POST")
          (lit "application/json") (repeat 34 2000)]
  /\ js_length
       (request_body
          (mkRequest (Part000.BACKEND_URL Part000.CONFIG) (lit "POST")
             (lit "application/json") (repeat 34 2000))) = 4011.
Proof. repeat split; vm_compute; reflexivity. Qed.


(** * Further properties *)

(** ** Trimming *)

Lemma trimStart_split (s : jsstring) :
  exists pre, s = pre ++ trimStart s /\ forallb is_white_space pre = true.
Proof.
  induction s as [|c s (pre & Hs & Hpre)]; [exists []; split; reflexivity|].
  cbn [trimStart]. destruct (is_white_space c) eqn:Hc.
  - exists (c :: pre). split; [cbn; f_equal; exact Hs|].
    cbn [forallb]. rewrite Hc. exact Hpre.
  - exists []. split; reflexivity.
Qed.

Lemma trimStart_first (s : jsstring) (c : code_unit) :
  first_unit (trimStart s) = Some c -> is_white_space c = false.
Proof.
  induction s as [|d s IH]; cbn [trimStart]; [discriminate|].
  destruct (is_white_space d) eqn:Hd; [exact IH|].
  cbn. intros [= <-]. exact Hd.
Qed.

Lemma trimStart_fixed (s : jsstring) :
  (forall c, first_unit s = Some c -> is_white_space c = false) ->
  trimStart s = s.
Proof.
  destruct s as [|c s]; [reflexivity|]. intros H.
  cbn [trimStart]. rewrite (H c eq_refl). reflexivity.
Qed.

Lemma forallb_rev (f : code_unit -> bool) (s : jsstring) :
  forallb f (rev s) = forallb f s.
Proof.
  induction s as [|c s IH]; [reflexivity|].
  cbn [rev forallb]. rewrite forallb_app, IH. cbn [forallb].
  rewrite andb_true_r. apply andb_comm.
Qed.

Lemma trim_split (s : jsstring) :
  exists pre post,
    s = pre ++ trim s ++ post
    /\ forallb is_white_space pre = true
    /\ forallb is_white_space post = true.
Proof.
  destruct (trimStart_split s) as (pre & Hs & Hpre).
  destruct (trimStart_split (rev (trimStart s))) as (q & Hq & Hqw).
  exists pre, (rev q). split; [|split; [exact Hpre|]].
  - unfold trim, trimEnd. rewrite <- rev_app_distr, <- Hq, rev_involutive.
    exact Hs.
  - rewrite forallb_rev. exact Hqw.
Qed.

Lemma trim_tight (s : jsstring) : tight (trim s).
Proof.
  split; intros c Hc.
  - unfold trim, trimEnd in Hc.
    destruct (trimStart_split (rev (trimStart s))) as (q & Hq & _).
    apply (trimStart_first s c).
    apply (f_equal (@rev code_unit)) in Hq.
    rewrite rev_involutive, rev_app_distr in Hq.
    rewrite Hq. unfold first_unit in *.
    destruct (rev (trimStart (rev (trimStart s)))); [discriminate Hc | exact Hc].
  - unfold last_unit, trim, trimEnd in Hc. rewrite rev_involutive in Hc.
    exact (trimStart_first _ c Hc).
Qed.

Lemma tight_trim (s : jsstring) : tight s -> trim s = s.
Proof.
  intros [Hfirst Hlast]. unfold trim, trimEnd.
  rewrite (trimStart_fixed s Hfirst).
  rewrite (trimStart_fixed (rev s) Hlast). apply rev_involutive.
Qed.

(** ** What a click submits *)

Section Submission.
Context {E : Engine}.

Lemma inputListener_value (d : Part000.DOM) :
  Part000.inputText_value (Part000.inputListener d)
  = firstn 2000 (Part000.inputText_value d).
Proof.
  unfold Part000.inputListener.
  change (Part000.MAX_INPUT_LENGTH Part000.CONFIG) with 2000.
  destruct (js_length (Part000.inputText_value d) >? 2000) eqn:Hgt.
  - cbn [Part000.set_inputText_value Part000.inputText_value].
    apply substring_prefix. lia.
  - rewrite Z.gtb_ltb in Hgt. apply Z.ltb_ge in Hgt.
    symmetry. apply firstn_all2. unfold js_length in Hgt. lia.
Qed.

Lemma inputListener_short (d : Part000.DOM) :
  js_length (Part000.inputText_value d) <= 2000 -> Part000.inputListener d = d.
Proof.
  intros Hle. unfold Part000.inputListener.
  change (Part000.MAX_INPUT_LENGTH Part000.CONFIG) with 2000.
  destruct (js_length (Part000.inputText_value d) >? 2000) eqn:Hgt;
    [|reflexivity].
  apply Z.gtb_lt in Hgt. lia.
Qed.

Lemma inputListener_bound (d : Part000.DOM) :
  js_length (Part000.inputText_value (Part000.inputListener d)) <= 2000.
Proof.
  rewrite inputListener_value. unfold js_length. rewrite length_firstn. lia.
Qed.

(** X1: the [input] listener only ever cuts the end of the text off.  What
    it leaves is a prefix of what was typed, a text of at most 2000 code
    units is not touched, running it twice is running it once, and nothing
    else on the page changes. *)
Theorem inputListener_keeps_a_prefix (d : Part000.DOM) :
  (exists rest,
     Part000.inputText_value d
     = Part000.inputText_value (Part000.inputListener d) ++ rest)
  /\ (js_length (Part000.inputText_value d) <= 2000 ->
      Part000.inputListener d = d)
  /\ Part000.inputListener (Part000.inputListener d) = Part000.inputListener d
  /\ Part000.inputListener d
     = Part000.set_inputText_value
         (Part000.inputText_value (Part000.inputListener d)) d.
Proof.
  split; [|split; [|split]].
  - exists (skipn 2000 (Part000.inputText_value d)).
    rewrite inputListener_value. symmetry. apply firstn_skipn.
  - apply inputListener_short.
  - apply inputListener_short. apply inputListener_bound.
  - unfold Part000.inputListener.
    destruct (js_length (Part000.inputText_value d)
              >? Part000.MAX_INPUT_LENGTH Part000.CONFIG);
      [reflexivity | destruct d; reflexivity].
Qed.

(** A click that passes validation: what it adds to the two logs. *)
Lemma click_valid_logs (net : Network) (w : Part000.World) :
  trim (Part000.inputText_value (Part000.dom w)) <> [] ->
  js_length (trim (Part000.inputText_value (Part000.dom w)))
    <= Part000.MAX_INPUT_LENGTH Part000.CONFIG ->
  Part000.alerts (world_of (Part000.handleAnalyzeClick net w)) = Part000.alerts w
  /\ Part000.requests (world_of (Part000.handleAnalyzeClick net w))
     = Part000.requests w
       ++ [mkRequest (Part000.BACKEND_URL Part000.CONFIG) (lit "POST")
             (lit "application/json")
             (trim (Part000.inputText_value (Part000.dom w)))].
Proof.
  intros Hne Hlen. rewrite (handleAnalyzeClick_valid net w Hne Hlen). cbv zeta.
  rewrite analyzeText_sent.
  destruct (outcome (Part000.analyzeText _ net)) as [data|e|].
  - destruct (Part000.processApiResponse data _) as [[u|e] d']; split; reflexivity.
  - split; reflexivity.
  - split; reflexivity.
Qed.

(** X2: a click either refuses the input or submits it, never both.
    Refusing is one alert, with the page and the request log as they were.
    Submitting shows no alert and hands [fetch] exactly one request: a POST
    of JSON to the back end's address, whose text is the typed text
    without the white space around it, not empty, at most 2000 code units
    long, and with no white space at either end. *)
Theorem click_refuses_or_submits (net : Network) (w : Part000.World) :
  (exists msg,
     Part000.handleAnalyzeClick net w
     = Settled (Part000.mkWorld (Part000.dom w) (Part000.alerts w ++ [msg])
                  (Part000.requests w)))
  \/ (Part000.alerts (world_of (Part000.handleAnalyzeClick net w))
      = Part000.alerts w
      /\ exists pre text post,
           Part000.inputText_value (Part000.dom w) = pre ++ text ++ post
           /\ forallb is_white_space pre = true
           /\ forallb is_white_space post = true
           /\ tight text /\ text <> [] /\ js_length text <= 2000
           /\ Part000.requests (world_of (Part000.handleAnalyzeClick net w))
              = Part000.requests w
                ++ [mkRequest
                      (lit "https://hate-speach-detection-model.onrender.com/analyze")
                      (lit "POST") (lit "application/json") text]).
Proof.
  destruct (trim (Part000.inputText_value (Part000.dom w))) as [|c s] eqn:Ht.
  - left. eexists. exact (handleAnalyzeClick_empty net w Ht).
  - destruct (Z.le_gt_cases (js_length (c :: s)) 2000) as [Hle|Hgt].
    + right.
      destruct (click_valid_logs net w) as [Ha Hr];
        [rewrite Ht; discriminate | rewrite Ht; exact Hle |].
      split; [exact Ha|].
      destruct (trim_split (Part000.inputText_value (Part000.dom w)))
        as (pre & post & Hsplit & Hpre & Hpost).
      exists pre, (c :: s), post. rewrite <- Ht.
      repeat split; try assumption.
      * apply trim_tight.
      * apply trim_tight.
      * rewrite Ht. discriminate.
      * rewrite Ht. exact Hle.
    + left. eexists. apply handleAnalyzeClick_too_long. rewrite Ht. exact Hgt.
Qed.

(** X3: once the [input] listener has run on the text area, a click never
    answers that the text is too long: it either asks for some text or
    submits. *)
Theorem typed_text_is_never_too_long (net : Network) (w : Part000.World) :
  let typed := Part000.on_dom Part000.inputListener w in
  Part000.handleAnalyzeClick net typed
  = Settled (Part000.mkWorld (Part000.dom typed)
               (Part000.alerts w ++ [lit "Please enter some text to analyze."])
               (Part000.requests w))
  \/ (Part000.alerts (world_of (Part000.handleAnalyzeClick net typed))
      = Part000.alerts w
      /\ Part000.requests (world_of (Part000.handleAnalyzeClick net typed))
         = Part000.requests w
           ++ [mkRequest (Part000.BACKEND_URL Part000.CONFIG) (lit "POST")
                 (lit "application/json")
                 (trim (firstn 2000 (Part000.inputText_value (Part000.dom w))))]).
Proof.
  intros typed.
  assert (Hv : Part000.inputText_value (Part000.dom typed)
               = firstn 2000 (Part000.inputText_value (Part000.dom w)))
    by apply inputListener_value.
  destruct (trim (Part000.inputText_value (Part000.dom typed))) as [|c s] eqn:Ht.
  - left. exact (handleAnalyzeClick_empty net typed Ht).
  - right. rewrite <- Hv.
    apply (click_valid_logs net typed).
    + rewrite Ht. discriminate.
    + pose proof (trim_length (Part000.inputText_value (Part000.dom typed))).
      pose proof (inputListener_bound (Part000.dom w)).
      change (Part000.MAX_INPUT_LENGTH Part000.CONFIG) with 2000.
      change (Part000.dom typed) with (Part000.inputListener (Part000.dom w)).
      change (Part000.dom typed) with (Part000.inputListener (Part000.dom w)) in H.
      lia.
Qed.

(** X4: [app.js] has no limit on the length: whatever is left of the text
    after trimming, if anything, is submitted without an alert. *)
Theorem app_click_submits_any_length (net : Network) (a : AppJs.World) :
  trim (AppJs.inputText_value (AppJs.dom a)) <> [] ->
  AppJs.alerts (world_of (AppJs.clickListener net a)) = AppJs.alerts a
  /\ AppJs.requests (world_of (AppJs.clickListener net a))
     = AppJs.requests a
       ++ [mkRequest AppJs.BACKEND_URL (lit "POST") (lit "application/json")
             (trim (AppJs.inputText_value (AppJs.dom a)))].
Proof.
  intros Hne. unfold AppJs.clickListener.
  rewrite (truthy_text _ Hne). cbn [negb]. rewrite app_analyzeText_sent.
  destruct (outcome (AppJs.analyzeText _ net)) as [data|e|].
  - destruct (AppJs.processApiResponse data _) as [[u|e] d']; split; reflexivity.
  - split; reflexivity.
  - split; reflexivity.
Qed.

End Submission.

(** ** What the call can and cannot give *)

Section Outcomes.
Context {E : Engine}.

(** X5: the abort of the timer never leaves [analyzeText] as it is: no
    rejection of the configurable script is named AbortError. *)
Theorem abort_error_never_escapes (text : jsstring) (net : Network)
    (e : JsError) :
  outcome (Part000.analyzeText text net) = Rejected e ->
  str_eqb (name e) (lit "AbortError") = false.
Proof.
  unfold Part000.analyzeText. destruct (fetch _ net) as [fetched aborted].
  cbn [outcome].
  match goal with
  | |- match ?tried with _ => _ end = _ -> _ => destruct tried as [v|err|]
  end; try discriminate.
  destruct (str_eqb (name err) (lit "AbortError")) eqn:Hn.
  - intros [= <-]. reflexivity.
  - destruct (includes (message err) (lit "Failed to fetch"));
      intros [= <-]; [reflexivity | exact Hn].
Qed.

(** X6: [analyzeText] returns a value only when a response with a status
    in 200..299 came before the timer and its body parsed, and the value
    is that body, untouched; the request was then not aborted. *)
Theorem fulfilled_only_by_a_success (text : jsstring) (net : Network)
    (v : Value) :
  outcome (Part000.analyzeText text net) = Fulfilled v ->
  exists t r,
    net = Responds t r
    /\ t < Part000.REQUEST_TIMEOUT Part000.CONFIG
    /\ 200 <= status r <= 299
    /\ body r = BodyJson v
    /\ signal_aborted (Part000.analyzeText text net) = false.
Proof.
  unfold Part000.analyzeText, fetch, json.
  destruct net as [t r|t msg|].
  - destruct (t <? Part000.REQUEST_TIMEOUT Part000.CONFIG) eqn:Ht;
      [|discriminate].
    destruct (ok r) eqn:Hok; cbn [negb outcome signal_aborted].
    + destruct (body r) as [data|e|] eqn:Hb.
      * intros [= <-]. exists t, r. apply Z.ltb_lt in Ht.
        unfold ok in Hok. apply andb_true_iff in Hok as [H1 H2].
        apply Z.leb_le in H1. apply Z.leb_le in H2.
        repeat split; try assumption.
      * repeat match goal with
               | |- context [if ?c then _ else _] => destruct c
               end; discriminate.
      * discriminate.
    + destruct (body r) as [data|e|]; [| |discriminate].
      * destruct (get data (lit "error")) as [supplied|e'];
          repeat match goal with
                 | |- context [if ?c then _ else _] => destruct c
                 end; discriminate.
      * destruct (get (VObj []) (lit "error")) as [supplied|e'];
          repeat match goal with
                 | |- context [if ?c then _ else _] => destruct c
                 end; discriminate.
  - destruct (t <? Part000.REQUEST_TIMEOUT Part000.CONFIG); cbn [outcome];
      repeat match goal with
             | |- context [if ?c then _ else _] => destruct c
             end; discriminate.
  - discriminate.
Qed.

(** X7: the configurable script does at least what [app.js] does: on
    whatever network [app.js] gets a value, the configurable [analyzeText]
    gets the same value, for the same request and without an abort. *)
Theorem app_success_is_kept (text : jsstring) (net : Network) (v : Value) :
  outcome (AppJs.analyzeText text net) = Fulfilled v ->
  Part000.analyzeText text net
  = mkCall (sent (AppJs.analyzeText text net)) false (Fulfilled v).
Proof.
  rewrite app_analyzeText_sent.
  unfold AppJs.analyzeText, fetch, json.
  destruct net as [t r|t msg|].
  - destruct (t <? 10000) eqn:Ht; [|discriminate].
    destruct (ok r) eqn:Hok; cbn [negb outcome]; [|discriminate].
    destruct (body r) as [data|e|] eqn:Hb; try discriminate.
    intros [= <-]. apply Z.ltb_lt in Ht.
    apply (analyzeText_ok text t r data); [cbn; lia | exact Hok | exact Hb].
  - destruct (t <? 10000); discriminate.
  - discriminate.
Qed.

Lemma status_message_no_tip (st : Z) :
  includes (lit "Server error: " ++ decimal st) (lit "timeout") = false
  /\ includes (lit "Server error: " ++ decimal st) (lit "connect") = false.
Proof.
  split.
  - destruct (includes _ _) eqn:H; [|reflexivity]. exfalso.
    change (lit "timeout") with (116 :: lit "imeout") in H.
    apply includes_head in H. apply in_app_or in H as [H|H].
    + cbn in H. repeat (destruct H as [H|H]; [discriminate H|]). exact H.
    + revert H. apply decimal_not_letter. lia.
  - destruct (includes _ _) eqn:H; [|reflexivity]. exfalso.
    change (lit "connect") with (99 :: lit "onnect") in H.
    apply includes_head in H. apply in_app_or in H as [H|H].
    + cbn in H. repeat (destruct H as [H|H]; [discriminate H|]). exact H.
    + revert H. apply decimal_not_letter. lia.
Qed.

(** X8: an error whose message is derived from the status is shown as it
    is, with neither of the two tips, whatever the status. *)
Theorem status_error_is_shown_plain (st : Z) (d : Part000.DOM) :
  Part000.handleError (new_Error (lit "Server error: " ++ decimal st)) d
  = Part000.set_resultBox_display (lit "block")
      (Part000.set_verdictText_innerHTML
         (Part000.error_block
            (Part000.warning_sign ++ lit " Error: " ++ lit "Server error: "
             ++ decimal st))
         d).
Proof.
  unfold Part000.handleError. cbn [message new_Error].
  destruct (status_message_no_tip st) as [Ht Hc].
  replace (includes (lit "Server error: " ++ decimal st) (lit "timeout"))
    with false by (symmetry; exact Ht).
  replace (includes (lit "Server error: " ++ decimal st) (lit "connect"))
    with false by (symmetry; exact Hc).
  reflexivity.
Qed.

(** A click that passes validation and whose call is rejected: the page it
    leaves. *)
Lemma click_rejected (net : Network) (w : Part000.World) (e : JsError) :
  trim (Part000.inputText_value (Part000.dom w)) <> [] ->
  js_length (trim (Part000.inputText_value (Part000.dom w)))
    <= Part000.MAX_INPUT_LENGTH Part000.CONFIG ->
  outcome (Part000.analyzeText
             (trim (Part000.inputText_value (Part000.dom w))) net)
  = Rejected e ->
  Part000.handleAnalyzeClick net w
  = Settled
      (Part000.mkWorld
         (Part000.setButtonState false
            (Part000.showLoader false
               (Part000.handleError e
                  (Part000.setButtonState true
                     (Part000.resetUI
                        (Part000.showLoader true (Part000.dom w)))))))
         (Part000.alerts w)
         (Part000.requests w
          ++ [mkRequest (Part000.BACKEND_URL Part000.CONFIG) (lit "POST")
                (lit "application/json")
                (trim (Part000.inputText_value (Part000.dom w)))])).
Proof.
  intros Hne Hlen Hrej.
  rewrite (handleAnalyzeClick_valid net w Hne Hlen). cbv zeta.
  rewrite Hrej, analyzeText_sent. reflexivity.
Qed.

(** X9: the page after a submitted click whose call failed, field by
    field: the typed text is still there, the button is enabled and
    labelled again, the loader is hidden, the result box is shown, every
    bar the page has is back to its empty state, and the verdict holds the
    error block with the message of the error and the tip its wording
    selects: the sleeping-server tip when the message contains "timeout",
    else the address tip when it contains "connect", else none. *)
Theorem failed_click_page (net : Network) (w : Part000.World) (e : JsError) :
  trim (Part000.inputText_value (Part000.dom w)) <> [] ->
  js_length (trim (Part000.inputText_value (Part000.dom w))) <= 2000 ->
  outcome (Part000.analyzeText
             (trim (Part000.inputText_value (Part000.dom w))) net)
  = Rejected e ->
  Part000.handleAnalyzeClick net w
  = Settled
      (Part000.mkWorld
         (Part000.mkDOM
            (Part000.inputText_value (Part000.dom w))
            false (lit "Analyze Text") (lit "none") (lit "block")
            (Part000.error_block
               ((Part000.warning_sign ++ lit " Error: " ++ message e)
                ++ (if includes (message e) (lit "timeout")
                    then Part000.timeout_tip
                    else if includes (message e) (lit "connect")
                    then Part000.connect_tip
                    else [])))
            (for_each_bar (fun _ => mkBar (lit "0%") [] (lit "#cbd5e1"))
               (Part000.categories (Part000.dom w))))
         (Part000.alerts w)
         (Part000.requests w
          ++ [mkRequest (Part000.BACKEND_URL Part000.CONFIG) (lit "POST")
                (lit "application/json")
                (trim (Part000.inputText_value (Part000.dom w)))])).
Proof.
  intros Hne Hlen Hrej. rewrite (click_rejected net w e Hne Hlen Hrej).
  unfold Part000.handleError.
  destruct (includes (message e) (lit "timeout"));
    [|destruct (includes (message e) (lit "connect"))];
    rewrite ?app_nil_r; reflexivity.
Qed.

(** X10: the tip is chosen by wording, not by cause.  A response with a
    status outside 200..299 whose [error] text mentions a timeout (and not
    "Failed to fetch") is rejected with that text, and [handleError] shows
    it with the tip of a client-side timeout. *)
Theorem server_text_selects_the_tip (text : jsstring) (t : Z) (st : Z)
    (s : jsstring) (d : Part000.DOM) :
  t < Part000.REQUEST_TIMEOUT Part000.CONFIG ->
  (st < 200 \/ 299 < st) ->
  includes s (lit "timeout") = true ->
  includes s (lit "Failed to fetch") = false ->
  outcome (Part000.analyzeText text
             (Responds t (mkResponse st (BodyJson (VObj [(lit "error", VStr s)])))))
  = Rejected (new_Error s)
  /\ Part000.verdictText_innerHTML (Part000.handleError (new_Error s) d)
     = Part000.error_block
         ((Part000.warning_sign ++ lit " Error: " ++ s) ++ Part000.timeout_tip).
Proof.
  intros Ht Hst Htime Hfetch. split.
  - rewrite analyzeText_not_ok; [|exact Ht|].
    + cbn [body status].
      change (get (VObj [(lit "error", VStr s)]) (lit "error")) with (Ok (VStr s)).
      assert (Hs : truthy (VStr s) = true).
      { destruct s; [discriminate Htime | reflexivity]. }
      cbv iota beta. rewrite Hs. cbn [to_string]. rewrite Hfetch. reflexivity.
    + unfold ok. cbn [status]. destruct Hst as [Hlo|Hhi].
      * apply andb_false_iff. left. apply Z.leb_gt. exact Hlo.
      * apply andb_false_iff. right. apply Z.leb_gt. exact Hhi.
  - unfold Part000.handleError. cbn [message new_Error]. rewrite Htime.
    reflexivity.
Qed.

End Outcomes.

(** ** What rendering touches *)

Section Rendering.
Context {E : Engine}.

Lemma same_bars_refl (cs : Categories) : same_bars cs cs.
Proof. intros k. reflexivity. Qed.

Lemma same_bars_trans (a b c : Categories) :
  same_bars a b -> same_bars b c -> same_bars a c.
Proof. intros Hab Hbc k. rewrite (Hbc k). apply Hab. Qed.

Lemma same_bars_set_bar (cs : Categories) (k : CategoryKey) (b0 b : Bar) :
  bar_of cs k = Some b0 -> same_bars cs (set_bar cs k b).
Proof.
  intros Hk k'. destruct k, k'; cbn [bar_of set_bar] in *;
    try reflexivity; rewrite Hk; split; discriminate.
Qed.

Lemma same_bars_for_each (f : Bar -> Bar) (cs : Categories) :
  same_bars cs (for_each_bar f cs).
Proof.
  intros k. destruct k; cbn [bar_of for_each_bar hate harassment selfHarm
                             sexual violence];
    match goal with
    | |- option_map f ?o = None <-> _ => destruct o
    end; cbn; split; congruence.
Qed.

Lemma for_each_bar_same (b : Bar) (cs cs' : Categories) :
  same_bars cs cs' ->
  for_each_bar (fun _ => b) cs' = for_each_bar (fun _ => b) cs.
Proof.
  intros H.
  assert (Hk : forall k, option_map (fun _ : Bar => b) (bar_of cs' k)
                         = option_map (fun _ : Bar => b) (bar_of cs k)).
  { intros k. specialize (H k).
    destruct (bar_of cs' k), (bar_of cs k); cbn; try reflexivity.
    - destruct H as [_ H]. discriminate (H eq_refl).
    - destruct H as [H _]. discriminate (H eq_refl). }
  unfold for_each_bar.
  rewrite (Hk key_hate : option_map _ (hate cs') = _).
  rewrite (Hk key_harassment : option_map _ (harassment cs') = _).
  rewrite (Hk key_selfHarm : option_map _ (selfHarm cs') = _).
  rewrite (Hk key_sexual : option_map _ (sexual cs') = _).
  rewrite (Hk key_violence : option_map _ (violence cs') = _).
  reflexivity.
Qed.

Lemma frame_refl (d : Part000.DOM) : frame d d.
Proof. repeat split; apply same_bars_refl. Qed.

Lemma frame_trans (a b c : Part000.DOM) : frame a b -> frame b c -> frame a c.
Proof.
  intros (H1 & H2 & H3 & H4 & H5) (K1 & K2 & K3 & K4 & K5).
  unfold frame. repeat (split; [congruence|]).
  exact (same_bars_trans _ _ _ H5 K5).
Qed.

Lemma frame_displayVerdict (flagged : Value) (d : Part000.DOM) :
  frame d (Part000.displayVerdict flagged d).
Proof.
  unfold Part000.displayVerdict. destruct (truthy flagged);
    repeat split; apply same_bars_refl.
Qed.

Lemma frame_updateCategoryBar (k : CategoryKey) (s c : Value) (d : Part000.DOM) :
  frame d (Part000.updateCategoryBar k s c d).
Proof.
  unfold Part000.updateCategoryBar.
  destruct (bar_of (Part000.categories d) k) as [b0|] eqn:Hk;
    [|apply frame_refl].
  unfold frame. repeat (split; [reflexivity|]).
  cbn [Part000.set_categories Part000.categories].
  exact (same_bars_set_bar _ k b0 _ Hk).
Qed.

Lemma frame_set_resultBox_display (v : jsstring) (d : Part000.DOM) :
  frame d (Part000.set_resultBox_display v d).
Proof. repeat split; apply same_bars_refl. Qed.

Lemma frame_handleError (e : JsError) (d : Part000.DOM) :
  frame d (Part000.handleError e d).
Proof. repeat split; apply same_bars_refl. Qed.

Lemma keeps_ret {A : Type} (a : A) : keeps_frame (ret a).
Proof. intros d. apply frame_refl. Qed.

Lemma keeps_throw {A : Type} (e : JsError) : keeps_frame (@throw _ A e).
Proof. intros d. apply frame_refl. Qed.

Lemma keeps_read {A : Type} (r : Result A) : keeps_frame (read r).
Proof. intros d. apply frame_refl. Qed.

Lemma keeps_assign (f : Part000.DOM -> Part000.DOM) :
  (forall d, frame d (f d)) -> keeps_frame (assign f).
Proof. intros H d. apply H. Qed.

Lemma keeps_bind {A B : Type} (m : Eff Part000.DOM A)
    (k : A -> Eff Part000.DOM B) :
  keeps_frame m -> (forall a, keeps_frame (k a)) -> keeps_frame (bind m k).
Proof.
  intros Hm Hk d. unfold bind. specialize (Hm d).
  destruct (m d) as [[a|e] d']; cbn [snd] in *; [|exact Hm].
  exact (frame_trans _ _ _ Hm (Hk a d')).
Qed.

Ltac keeps_frame_steps :=
  repeat first
    [ apply keeps_ret
    | apply keeps_throw
    | apply keeps_read
    | apply keeps_assign; intros ?;
      first [ apply frame_displayVerdict
            | apply frame_updateCategoryBar
            | apply frame_set_resultBox_display ]
    | apply keeps_bind; [|intros ?]
    | match goal with
      | |- keeps_frame (if ?b then _ else _) => destruct b
      end ].

Lemma processApiResponse_keeps_frame (data : Value) :
  keeps_frame (Part000.processApiResponse data).
Proof. unfold Part000.processApiResponse. keeps_frame_steps. Qed.

(** X11: whatever the body holds and whether it returns or throws,
    [processApiResponse] leaves the typed text, the button and the loader
    as they are and neither adds nor removes a bar; [handleError] does the
    same. *)
Theorem rendering_keeps_the_frame (data : Value) (e : JsError)
    (d : Part000.DOM) :
  frame d (snd (Part000.processApiResponse data d))
  /\ frame d (Part000.handleError e d).
Proof.
  split; [apply processApiResponse_keeps_frame | apply frame_handleError].
Qed.

Lemma resetUI_frame (d d' : Part000.DOM) :
  frame d d' -> Part000.resetUI d' = Part000.resetUI d.
Proof.
  intros (H1 & H2 & H3 & H4 & H5).
  unfold Part000.resetUI, Part000.set_categories,
    Part000.set_resultBox_display, Part000.set_verdictText_innerHTML.
  cbn [Part000.set_categories Part000.set_resultBox_display
       Part000.set_verdictText_innerHTML Part000.inputText_value
       Part000.analyzeBtn_disabled Part000.analyzeBtn_innerHTML
       Part000.loader_display Part000.resultBox_display
       Part000.verdictText_innerHTML Part000.categories].
  rewrite H1, H2, H3, H4, (for_each_bar_same _ _ _ H5). reflexivity.
Qed.

(** X12: [resetUI] wipes every trace of a previous result.  After any
    processing of a body, completed or interrupted by an error, and after
    any error display, resetting gives the page that resetting gave before;
    and resetting twice is resetting once. *)
Theorem resetUI_erases_results (data : Value) (e : JsError) (d : Part000.DOM) :
  Part000.resetUI (snd (Part000.processApiResponse data d)) = Part000.resetUI d
  /\ Part000.resetUI (Part000.handleError e d) = Part000.resetUI d
  /\ Part000.resetUI
       (Part000.handleError e (snd (Part000.processApiResponse data d)))
     = Part000.resetUI d
  /\ Part000.resetUI (Part000.resetUI d) = Part000.resetUI d.
Proof.
  split; [|split; [|split]].
  - apply resetUI_frame, processApiResponse_keeps_frame.
  - apply resetUI_frame, frame_handleError.
  - apply resetUI_frame.
    exact (frame_trans _ _ _ (processApiResponse_keeps_frame data d)
             (frame_handleError e _)).
  - apply resetUI_frame. unfold frame. repeat (split; [reflexivity|]).
    apply same_bars_for_each.
Qed.

Lemma frame_kept (d d' : Part000.DOM) : frame d d' -> kept d d'.
Proof. intros (H1 & _ & _ & _ & H5). split; assumption. Qed.

Lemma kept_trans (a b c : Part000.DOM) : kept a b -> kept b c -> kept a c.
Proof.
  intros [H1 H2] [K1 K2]. split; [congruence|].
  exact (same_bars_trans _ _ _ H2 K2).
Qed.

Lemma kept_start (d : Part000.DOM) :
  kept d (Part000.setButtonState true
            (Part000.resetUI (Part000.showLoader true d))).
Proof. split; [reflexivity | apply same_bars_for_each]. Qed.

Lemma kept_finish (d : Part000.DOM) :
  kept d (Part000.setButtonState false (Part000.showLoader false d)).
Proof. split; [reflexivity | apply same_bars_refl]. Qed.

(** A click never alters the typed text and never adds or removes a bar. *)
Lemma click_kept (net : Network) (w : Part000.World) :
  kept (Part000.dom w) (Part000.dom (world_of (Part000.handleAnalyzeClick net w))).
Proof.
  destruct (trim (Part000.inputText_value (Part000.dom w))) as [|c s] eqn:Ht.
  - rewrite (handleAnalyzeClick_empty net w Ht).
    split; [reflexivity | apply same_bars_refl].
  - destruct (Z.le_gt_cases (js_length (c :: s)) 2000) as [Hle|Hgt].
    + rewrite handleAnalyzeClick_valid;
        [|rewrite Ht; discriminate | rewrite Ht; exact Hle].
      cbv zeta.
      destruct (outcome (Part000.analyzeText _ net)) as [data|e|];
        cbn [world_of Part000.dom].
      * pose proof (processApiResponse_keeps_frame data
                      (Part000.setButtonState true
                         (Part000.resetUI
                            (Part000.showLoader true (Part000.dom w))))) as Hp.
        destruct (Part000.processApiResponse data _) as [[u|e] d'];
          cbn [snd] in Hp; cbn [world_of Part000.dom Part000.finish Part000.on_dom].
        -- exact (kept_trans _ _ _ (kept_start _)
                    (kept_trans _ _ _ (frame_kept _ _ Hp) (kept_finish _))).
        -- exact (kept_trans _ _ _ (kept_start _)
                    (kept_trans _ _ _ (frame_kept _ _ Hp)
                       (kept_trans _ _ _
                          (frame_kept _ _ (frame_handleError e d'))
                          (kept_finish _)))).
      * cbn [Part000.finish Part000.on_dom Part000.dom].
        exact (kept_trans _ _ _ (kept_start _)
                 (kept_trans _ _ _ (frame_kept _ _ (frame_handleError e _))
                    (kept_finish _))).
      * apply kept_start.
    + rewrite handleAnalyzeClick_too_long; [|rewrite Ht; exact Hgt].
      split; [reflexivity | apply same_bars_refl].
Qed.

End Rendering.

(** ** The bars *)

Section Bars.
Context {E : Engine}.

Lemma updateCategoryBar_paints (k : CategoryKey) (s f : Value)
    (d : Part000.DOM) (b0 : Bar) :
  bar_of (Part000.categories d) k = Some b0 ->
  Part000.updateCategoryBar k s f d
  = Part000.set_categories
      (set_bar (Part000.categories d) k (painted_bar s f)) d.
Proof.
  intros Hk. unfold painted_bar, Part000.updateCategoryBar. rewrite Hk.
  cbn [bar_of Part000.categories all_bars hate Part000.set_categories set_bar].
  destruct (truthy f); [reflexivity|].
  destruct (PrimFloat.ltb 50 _); [reflexivity|].
  destruct (PrimFloat.ltb 20 _); reflexivity.
Qed.

Lemma painted_bar_flag (s f : Value) :
  painted_bar s f = painted_bar s (VBool (truthy f)).
Proof.
  unfold painted_bar, Part000.updateCategoryBar.
  cbn [bar_of Part000.categories all_bars hate Part000.set_categories set_bar
       truthy].
  destruct (truthy f); reflexivity.
Qed.

Lemma bar_eqb_eq (a b : Bar) : bar_eqb a b = true -> a = b.
Proof.
  destruct a, b. unfold bar_eqb. cbn [width innerText backgroundColor].
  intros H. apply andb_true_iff in H as [H H3].
  apply andb_true_iff in H as [H1 H2].
  apply str_eqb_eq in H1, H2, H3. congruence.
Qed.

Lemma percentages_checked :
  forallb
    (fun k =>
       bar_eqb (painted_bar (VNum (hundredths k)) (VBool true)) (percent_bar k true)
       && bar_eqb (painted_bar (VNum (hundredths k)) (VBool false))
            (percent_bar k false))
    percentages = true.
Proof. vm_compute. reflexivity. Qed.

Lemma in_percentages (k : Z) : 0 <= k <= 100 -> In k percentages.
Proof.
  intros Hk. unfold percentages.
  replace k with (Z.of_nat (Z.to_nat k)) by lia.
  apply in_map. apply in_seq. lia.
Qed.

(** X14: a score written with two decimals is shown as the percentage it
    spells.  For every whole percentage [k] from 0 to 100, the double
    nearest to [k / 100] is painted as [k]: the width is [k] percent but
    never under 2, the label is FLAGGED in red when the category is
    flagged, and otherwise High Risk in orange above 50, Medium in yellow
    above 20, Low in green up to 20. *)
Theorem two_decimal_scores_are_exact (k : Z) (key : CategoryKey)
    (flagged : Value) (d : Part000.DOM) (b0 : Bar) :
  0 <= k <= 100 ->
  bar_of (Part000.categories d) key = Some b0 ->
  Part000.updateCategoryBar key (VNum (hundredths k)) flagged d
  = Part000.set_categories
      (set_bar (Part000.categories d) key (percent_bar k (truthy flagged))) d.
Proof.
  intros Hk Hbar. rewrite (updateCategoryBar_paints key _ _ d b0 Hbar).
  rewrite painted_bar_flag.
  pose proof percentages_checked as Hall.
  rewrite forallb_forall in Hall.
  specialize (Hall k (in_percentages k Hk)).
  apply andb_true_iff in Hall as [Htrue Hfalse].
  destruct (truthy flagged).
  - rewrite (bar_eqb_eq _ _ Htrue). reflexivity.
  - rewrite (bar_eqb_eq _ _ Hfalse). reflexivity.
Qed.


(** A bar the page does not have is skipped. *)
Lemma updateCategoryBar_absent (key : CategoryKey) (s f : Value)
    (d : Part000.DOM) :
  bar_of (Part000.categories d) key = None ->
  Part000.updateCategoryBar key s f d = d.
Proof. intros H. unfold Part000.updateCategoryBar. rewrite H. reflexivity. Qed.



End Bars.

(** ** Each bar and its category *)

Section EachBar.
Context {E : Engine}.



Lemma start_kept (d d1 : Part000.DOM) :
  kept d d1 ->
  Part000.setButtonState true (Part000.resetUI (Part000.showLoader true d1))
  = Part000.setButtonState true (Part000.resetUI (Part000.showLoader true d)).
Proof.
  intros [Hv Hb].
  unfold Part000.setButtonState, Part000.resetUI, Part000.showLoader,
    Part000.set_analyzeBtn, Part000.set_categories,
    Part000.set_resultBox_display, Part000.set_verdictText_innerHTML,
    Part000.set_loader_display.
  cbn [Part000.inputText_value Part000.analyzeBtn_disabled
       Part000.analyzeBtn_innerHTML Part000.loader_display
       Part000.resultBox_display Part000.verdictText_innerHTML
       Part000.categories].
  rewrite Hv, (for_each_bar_same _ _ _ Hb). reflexivity.
Qed.


(** The page a click leaves depends on the page it found only through the
    typed text and the bars that exist. *)
Lemma click_page_from_start (net : Network) (w w1 : Part000.World) :
  kept (Part000.dom w) (Part000.dom w1) ->
  (trim (Part000.inputText_value (Part000.dom w)) = []
   \/ 2000 < js_length (trim (Part000.inputText_value (Part000.dom w))) ->
   Part000.dom w1 = Part000.dom w) ->
  Part000.dom (world_of (Part000.handleAnalyzeClick net w1))
  = Part000.dom (world_of (Part000.handleAnalyzeClick net w)).
Proof.
  intros Hkept Hsame. pose proof Hkept as [Hv _].
  destruct (trim (Part000.inputText_value (Part000.dom w))) as [|c s] eqn:Ht.
  - rewrite (handleAnalyzeClick_empty net w Ht).
    rewrite (handleAnalyzeClick_empty net w1) by (rewrite Hv; exact Ht).
    cbn [world_of Part000.dom]. apply Hsame. left. reflexivity.
  - destruct (Z.le_gt_cases (js_length (c :: s)) 2000) as [Hle|Hgt].
    + rewrite (handleAnalyzeClick_valid net w)
        by (rewrite Ht; first [discriminate | exact Hle]).
      rewrite (handleAnalyzeClick_valid net w1)
        by (rewrite Hv, Ht; first [discriminate | exact Hle]).
      cbv zeta. cbn [Part000.dom]. rewrite Hv, (start_kept _ _ Hkept).
      destruct (outcome (Part000.analyzeText _ net)) as [data|e|].
      * destruct (Part000.processApiResponse data _) as [[u|e] d']; reflexivity.
      * reflexivity.
      * reflexivity.
    + rewrite (handleAnalyzeClick_too_long net w) by (rewrite Ht; exact Hgt).
      rewrite (handleAnalyzeClick_too_long net w1) by (rewrite Hv, Ht; exact Hgt).
      cbn [world_of Part000.dom]. apply Hsame. right. exact Hgt.
Qed.

(** X13: runs that follow one another do not accumulate.  A run of the
    handler that has come to its end has not altered the text the user
    typed and has neither added nor removed a bar; and a run that starts on
    the page it left, after it has ended, leaves the page it would have
    left had the earlier run not happened.  (Runs that overlap, a second
    one started while the first still waits for its answer, are not
    covered.) *)
Theorem clicks_do_not_accumulate (net1 net2 : Network) (w w1 : Part000.World) :
  Part000.handleAnalyzeClick net1 w = Settled w1 ->
  kept (Part000.dom w) (Part000.dom w1)
  /\ Part000.dom (world_of (Part000.handleAnalyzeClick net2 w1))
     = Part000.dom (world_of (Part000.handleAnalyzeClick net2 w)).
Proof.
  intros Hfirst.
  assert (Hw1 : w1 = world_of (Part000.handleAnalyzeClick net1 w))
    by (rewrite Hfirst; reflexivity).
  subst w1. clear Hfirst.
  split; [apply click_kept|].
  apply click_page_from_start; [apply click_kept|].
  intros [Hempty|Hlong].
  - rewrite (handleAnalyzeClick_empty net1 w Hempty). reflexivity.
  - rewrite (handleAnalyzeClick_too_long net1 w Hlong). reflexivity.
Qed.

End EachBar.

(** ** The minimal script *)

Section Minimal.
Context {E : Engine}.

Lemma app_updateCategory_other (k k' : CategoryKey) (v : Value) (d : AppJs.DOM) :
  k <> k' ->
  bar_of (AppJs.categories (AppJs.updateCategory k v d)) k'
  = bar_of (AppJs.categories d) k'.
Proof.
  intros Hk. unfold AppJs.updateCategory.
  destruct (bar_of (AppJs.categories d) k); [|reflexivity].
  destruct k, k'; try congruence; reflexivity.
Qed.

Lemma app_updateCategory_own (k : CategoryKey) (v : Value) (d : AppJs.DOM)
    (b0 : Bar) :
  bar_of (AppJs.categories d) k = Some b0 ->
  bar_of (AppJs.categories (AppJs.updateCategory k v d)) k
  = Some (mkBar (if truthy v then lit "100%" else lit "5%")
            (if truthy v then lit "Detected" else lit "Clean")
            (backgroundColor b0)).
Proof.
  intros Hk. unfold AppJs.updateCategory. rewrite Hk.
  cbn [AppJs.set_categories AppJs.categories].
  destruct k; reflexivity.
Qed.

Lemma app_processApiResponse_valid (flagged scores : Value)
    (cats : list (jsstring * Value)) (d : AppJs.DOM) :
  AppJs.processApiResponse (moderation_body flagged (VObj cats) scores) d
  = (Ok tt,
     AppJs.set_resultBox_display (lit "block")
       (AppJs.updateCategory key_violence (lookup cats (lit "violence"))
       (AppJs.updateCategory key_sexual (lookup cats (lit "sexual"))
       (AppJs.updateCategory key_selfHarm (lookup cats (lit "self-harm"))
       (AppJs.updateCategory key_harassment (lookup cats (lit "harassment"))
       (AppJs.updateCategory key_hate (lookup cats (lit "hate"))
       (AppJs.set_verdictText_innerText
          (if truthy flagged
           then utf16 128680 ++ lit " Hate / Toxic Content Detected"
           else utf16 9989 ++ lit " Content Appears Safe")
          d))))))).
Proof. reflexivity. Qed.

(** X18: [app.js] paints a bar from the flag of its category alone.  The
    scores of the body play no part in what the page becomes, and each bar
    the page has ends at 100% "Detected" when the flag stored under its
    category's name is truthy and at 5% "Clean" otherwise, its colour
    untouched. *)
Theorem app_bars_follow_the_flags (flagged scores scores' : Value)
    (cats : list (jsstring * Value)) (d : AppJs.DOM) (key : CategoryKey)
    (b0 : Bar) :
  bar_of (AppJs.categories d) key = Some b0 ->
  AppJs.processApiResponse (moderation_body flagged (VObj cats) scores) d
  = AppJs.processApiResponse (moderation_body flagged (VObj cats) scores') d
  /\ bar_of (AppJs.categories
               (snd (AppJs.processApiResponse
                       (moderation_body flagged (VObj cats) scores) d))) key
     = Some (mkBar
               (if truthy (lookup cats (category_name key))
                then lit "100%" else lit "5%")
               (if truthy (lookup cats (category_name key))
                then lit "Detected" else lit "Clean")
               (backgroundColor b0)).
Proof.
  intros Hbar. rewrite !app_processApiResponse_valid.
  split; [reflexivity|].
  cbn [snd AppJs.set_resultBox_display AppJs.categories].
  destruct key; cbn [category_name];
    rewrite ?app_updateCategory_other by discriminate;
    (erewrite app_updateCategory_own; [reflexivity|]);
    rewrite ?app_updateCategory_other by discriminate;
    exact Hbar.
Qed.

Lemma app_analyzeText_ok (text : jsstring) (t : Z) (r : Response) (data : Value) :
  t < 10000 -> ok r = true -> body r = BodyJson data ->
  AppJs.analyzeText text (Responds t r)
  = mkCall (mkRequest AppJs.BACKEND_URL (lit "POST") (lit "application/json") text)
      false (Fulfilled data).
Proof.
  intros Ht Hok Hbody. unfold AppJs.analyzeText, fetch, json.
  apply Z.ltb_lt in Ht. rewrite Ht, Hok, Hbody. reflexivity.
Qed.

(** X19: in [app.js] a body without a truthy [results] is no error.  The
    click ends with the verdict "Invalid response from server.", the
    result box still hidden, the loader hidden, the bars at their empty
    state and no alert. *)
Theorem app_invalid_body_page (t : Z) (r : Response) (data results : Value)
    (a : AppJs.World) :
  trim (AppJs.inputText_value (AppJs.dom a)) <> [] ->
  t < 10000 -> ok r = true -> body r = BodyJson data ->
  get data (lit "results") = Ok results -> truthy results = false ->
  AppJs.clickListener (Responds t r) a
  = Settled
      (AppJs.mkWorld
         (AppJs.mkDOM (AppJs.inputText_value (AppJs.dom a)) (lit "none")
            (lit "none") (lit "Invalid response from server.")
            (for_each_bar (fun bar => mkBar (lit "0%") [] (backgroundColor bar))
               (AppJs.categories (AppJs.dom a))))
         (AppJs.alerts a)
         (AppJs.requests a
          ++ [mkRequest AppJs.BACKEND_URL (lit "POST") (lit "application/json")
                (trim (AppJs.inputText_value (AppJs.dom a)))])).
Proof.
  intros Hne Ht Hok Hbody Hr Hrt. unfold AppJs.clickListener.
  rewrite (truthy_text _ Hne). cbn [negb].
  rewrite (app_analyzeText_ok _ t r data Ht Hok Hbody). cbn [outcome sent].
  unfold AppJs.processApiResponse, bind, read, ret, assign.
  rewrite Hr, Hrt. reflexivity.
Qed.

Lemma box_kept_ret {A : Type} (a : A) : box_kept (ret a).
Proof. intros d. reflexivity. Qed.

Lemma box_kept_read {A : Type} (r : Result A) : box_kept (read r).
Proof. intros d. reflexivity. Qed.

Lemma box_kept_verdict (v : jsstring) :
  box_kept (assign (AppJs.set_verdictText_innerText v)).
Proof. intros d. reflexivity. Qed.

Lemma box_kept_updateCategory (k : CategoryKey) (v : Value) :
  box_kept (assign (AppJs.updateCategory k v)).
Proof.
  intros d. unfold assign, AppJs.updateCategory. cbn [snd].
  destruct (bar_of (AppJs.categories d) k); reflexivity.
Qed.

Lemma box_kept_bind {A B : Type} (m : Eff AppJs.DOM A) (k : A -> Eff AppJs.DOM B) :
  box_kept m -> (forall a, box_kept (k a)) -> box_kept (bind m k).
Proof.
  intros Hm Hk d. unfold bind. specialize (Hm d).
  destruct (m d) as [[a|e] d']; cbn [snd] in *; [|exact Hm].
  rewrite (Hk a d'). exact Hm.
Qed.

Lemma on_throw_bind {A B : Type} (m : Eff AppJs.DOM A) (k : A -> Eff AppJs.DOM B) :
  box_kept m -> (forall a, box_kept_on_throw (k a)) ->
  box_kept_on_throw (bind m k).
Proof.
  intros Hm Hk d e d' H. unfold bind in H. specialize (Hm d).
  destruct (m d) as [[a|e0] d0]; cbn [snd] in Hm.
  - rewrite (Hk a d0 e d' H). exact Hm.
  - injection H as _ <-. exact Hm.
Qed.

Lemma on_throw_assign (f : AppJs.DOM -> AppJs.DOM) : box_kept_on_throw (assign f).
Proof. intros d e d' H. discriminate H. Qed.

Lemma app_processApiResponse_on_throw (data : Value) :
  box_kept_on_throw (AppJs.processApiResponse data).
Proof.
  unfold AppJs.processApiResponse.
  apply on_throw_bind.
  - repeat first
      [ apply box_kept_ret | apply box_kept_read
      | apply box_kept_bind; [|intros ?]
      | match goal with
        | |- box_kept (if ?b then _ else _) => destruct b
        end ].
  - intros invalid. destruct invalid; [apply on_throw_assign|].
    repeat first
      [ apply on_throw_assign
      | apply on_throw_bind;
        [ first [ apply box_kept_read | apply box_kept_verdict
                | apply box_kept_updateCategory ] | intros ? ] ].
Qed.

(** X20: in [app.js], when the processing of a body throws (the body is
    [null], or its first result has no [categories]), the click ends on
    the generic error text with the loader hidden, and the result box is
    still hidden. *)
Theorem app_processing_error_page (t : Z) (r : Response) (data : Value)
    (a : AppJs.World) (e : JsError) (d' : AppJs.DOM) :
  trim (AppJs.inputText_value (AppJs.dom a)) <> [] ->
  t < 10000 -> ok r = true -> body r = BodyJson data ->
  AppJs.processApiResponse data
    (AppJs.resetUI (AppJs.showLoader true (AppJs.dom a)))
  = (Thrown e, d') ->
  exists a',
    AppJs.clickListener (Responds t r) a = Settled a'
    /\ AppJs.verdictText_innerText (AppJs.dom a') = AppJs.generic_error
    /\ AppJs.loader_display (AppJs.dom a') = lit "none"
    /\ AppJs.resultBox_display (AppJs.dom a') = lit "none".
Proof.
  intros Hne Ht Hok Hbody Hthrown.
  pose proof (app_processApiResponse_on_throw data _ e d' Hthrown) as Hbox.
  unfold AppJs.clickListener.
  rewrite (truthy_text _ Hne). cbn [negb].
  rewrite (app_analyzeText_ok _ t r data Ht Hok Hbody). cbn [outcome sent].
  cbn [AppJs.on_dom AppJs.dom]. rewrite Hthrown.
  eexists. split; [reflexivity|]. split; [reflexivity|]. split; [reflexivity|].
  cbn [AppJs.dom AppJs.on_dom AppJs.showLoader AppJs.set_loader_display
       AppJs.set_verdictText_innerText AppJs.resultBox_display].
  rewrite Hbox. reflexivity.
Qed.

End Minimal.

(** ** Further runs on concrete inputs *)

Lemma app_click_submits_any_length_witness :
  js_length (trim (repeat 97 2500)) = 2500
  /\ AppJs.alerts
       (world_of (AppJs.clickListener (E := example_engine) Silent
                    (app_page (repeat 97 2500)))) = []
  /\ AppJs.requests
       (world_of (AppJs.clickListener (E := example_engine) Silent
                    (app_page (repeat 97 2500))))
     = [mkRequest AppJs.BACKEND_URL (lit "POST") (lit "application/json")
          (trim (repeat 97 2500))].
Proof.
  split; [vm_compute; reflexivity|].
  apply (@app_click_submits_any_length example_engine Silent
           (app_page (repeat 97 2500))).
  vm_compute. discriminate.
Defined.

Lemma abort_error_never_escapes_witness :
  outcome (Part000.analyzeText (E := example_engine) (lit "you") Silent)
  = Rejected (new_Error Part000.timeout_message)
  /\ str_eqb (name (new_Error Part000.timeout_message)) (lit "AbortError") = false.
Proof.
  split; [reflexivity|].
  apply (@abort_error_never_escapes example_engine (lit "you") Silent).
  reflexivity.
Defined.

Lemma fulfilled_only_by_a_success_witness :
  exists t r,
    Responds 120 (mkResponse 200 (BodyJson sample_body)) = Responds t r
    /\ t < Part000.REQUEST_TIMEOUT Part000.CONFIG
    /\ 200 <= status r <= 299
    /\ body r = BodyJson sample_body
    /\ signal_aborted
         (Part000.analyzeText (E := example_engine) (lit "you")
            (Responds 120 (mkResponse 200 (BodyJson sample_body)))) = false.
Proof.
  apply (@fulfilled_only_by_a_success example_engine (lit "you")
           (Responds 120 (mkResponse 200 (BodyJson sample_body))) sample_body).
  reflexivity.
Defined.

Lemma app_success_is_kept_witness :
  outcome
    (AppJs.analyzeText (E := example_engine) (lit "you")
       (Responds 120 (mkResponse 200 (BodyJson sample_body))))
  = Fulfilled sample_body
  /\ outcome
       (Part000.analyzeText (E := example_engine) (lit "you")
          (Responds 120 (mkResponse 200 (BodyJson sample_body))))
     = Fulfilled sample_body.
Proof.
  split; [reflexivity|].
  rewrite (@app_success_is_kept example_engine (lit "you")
             (Responds 120 (mkResponse 200 (BodyJson sample_body))) sample_body);
    reflexivity.
Defined.

Lemma failed_click_page_witness :
  exists w',
    Part000.handleAnalyzeClick (E := example_engine) Silent (page (lit " you "))
    = Settled w'
    /\ Part000.inputText_value (Part000.dom w') = lit " you "
    /\ Part000.resultBox_display (Part000.dom w') = lit "block"
    /\ Part000.verdictText_innerHTML (Part000.dom w')
       = Part000.error_block
           (Part000.warning_sign ++ lit " Error: " ++ Part000.timeout_message
            ++ Part000.timeout_tip).
Proof.
  eexists. split.
  - apply (@failed_click_page example_engine Silent (page (lit " you "))
             (new_Error Part000.timeout_message)).
    + vm_compute. discriminate.
    + vm_compute. discriminate.
    + reflexivity.
  - split; [reflexivity|]. split; [reflexivity|]. vm_compute. reflexivity.
Defined.

Lemma server_text_selects_the_tip_witness :
  outcome
    (Part000.analyzeText (E := example_engine) (lit "you")
       (Responds 120 (mkResponse 504 (BodyJson (error_body "Gateway timeout")))))
  = Rejected (new_Error (lit "Gateway timeout"))
  /\ Part000.verdictText_innerHTML
       (Part000.handleError (new_Error (lit "Gateway timeout"))
          (Part000.dom (page (lit "you"))))
     = Part000.error_block
         ((Part000.warning_sign ++ lit " Error: " ++ lit "Gateway timeout")
          ++ Part000.timeout_tip).
Proof.
  apply (@server_text_selects_the_tip example_engine (lit "you") 120 504
           (lit "Gateway timeout") (Part000.dom (page (lit "you"))));
    [reflexivity | right; reflexivity | reflexivity | reflexivity].
Defined.

Lemma two_decimal_scores_are_exact_witness :
  Part000.updateCategoryBar (E := example_engine) key_hate
    (VNum (hundredths 57)) (VBool false) (Part000.dom (page (lit "you")))
  = Part000.set_categories
      (set_bar all_bars key_hate
         (mkBar (lit "57%") (lit "57% - High Risk") (lit "#f59e0b")))
      (Part000.dom (page (lit "you"))).
Proof.
  rewrite (@two_decimal_scores_are_exact example_engine 57 key_hate
             (VBool false) (Part000.dom (page (lit "you"))) blank_bar);
    [reflexivity | lia | reflexivity].
Defined.



Lemma app_bars_follow_the_flags_witness :
  bar_of
    (AppJs.categories
       (snd (AppJs.processApiResponse (E := example_engine) sample_body
               (AppJs.dom (app_page (lit "you"))))))
    key_hate
  = Some (mkBar (lit "100%") (lit "Detected") []).
Proof.
  destruct (@app_bars_follow_the_flags example_engine (VBool true)
              sample_scores VNull
              [(lit "hate", VBool true); (lit "harassment", VBool false);
               (lit "self-harm", VBool false); (lit "sexual", VBool false);
               (lit "violence", VBool false)]
              (AppJs.dom (app_page (lit "you"))) key_hate blank_bar)
    as [_ Hbar]; [reflexivity|].
  exact Hbar.
Defined.

Lemma app_invalid_body_page_witness :
  AppJs.clickListener (E := example_engine)
    (Responds 120 (mkResponse 200 (BodyJson (VObj [])))) (app_page (lit "you"))
  = Settled
      (AppJs.mkWorld
         (AppJs.mkDOM (lit "you") (lit "none") (lit "none")
            (lit "Invalid response from server.")
            (for_each_bar (fun bar => mkBar (lit "0%") [] (backgroundColor bar))
               all_bars))
         []
         [mkRequest AppJs.BACKEND_URL (lit "POST") (lit "application/json")
            (lit "you")]).
Proof.
  apply (@app_invalid_body_page example_engine 120
           (mkResponse 200 (BodyJson (VObj []))) (VObj []) VUndefined
           (app_page (lit "you")));
    try reflexivity.
  vm_compute. discriminate.
Defined.

Lemma app_processing_error_page_witness :
  exists a',
    AppJs.clickListener (E := example_engine)
      (Responds 120 (mkResponse 200 (BodyJson VNull))) (app_page (lit "you"))
    = Settled a'
    /\ AppJs.verdictText_innerText (AppJs.dom a') = AppJs.generic_error
    /\ AppJs.loader_display (AppJs.dom a') = lit "none"
    /\ AppJs.resultBox_display (AppJs.dom a') = lit "none".
Proof.
  apply (@app_processing_error_page example_engine 120
           (mkResponse 200 (BodyJson VNull)) VNull (app_page (lit "you"))
           (mkError (lit "TypeError")
              (lit "Cannot read properties of null (reading 'results')"))
           (AppJs.resetUI (AppJs.showLoader true (AppJs.dom (app_page (lit "you"))))));
    try reflexivity.
  vm_compute. discriminate.
Defined.


Lemma clicks_do_not_accumulate_witness :
  Part000.handleAnalyzeClick (E := example_engine)
    (Responds 120 (mkResponse 200 (BodyJson sample_body))) (page (lit " you "))
  = Settled
      (world_of
         (Part000.handleAnalyzeClick (E := example_engine)
            (Responds 120 (mkResponse 200 (BodyJson sample_body)))
            (page (lit " you "))))
  /\ Part000.dom
       (world_of
          (Part000.handleAnalyzeClick (E := example_engine) Silent
             (world_of
                (Part000.handleAnalyzeClick (E := example_engine)
                   (Responds 120 (mkResponse 200 (BodyJson sample_body)))
                   (page (lit " you "))))))
     = Part000.dom
         (world_of
            (Part000.handleAnalyzeClick (E := example_engine) Silent
               (page (lit " you ")))).
Proof.
  split; [vm_compute; reflexivity|].
  apply (@clicks_do_not_accumulate example_engine
           (Responds 120 (mkResponse 200 (BodyJson sample_body))) Silent
           (page (lit " you "))).
  vm_compute. reflexivity.
Defined.
